(** * Device stats monitor

    A shallow embedding of
    [src/pytorch_lightning/callbacks/device_stats_monitor.py]:
    the [DeviceStatsMonitor] callback, its key-prefixing helper
    [_prefix_metric_keys] and the deprecated [prefix_metric_keys].

    Python dictionaries are association lists in insertion order with
    Python's own update rules; calls to the collaborators (accelerator,
    process-metrics provider, loggers, deprecation notice) are recorded
    as events of a trace; a raised exception ends the computation.

    The module is embedded twice.  In the first embedding every
    collaborator call returns.  [Raising] embeds the sampling call once
    more with collaborators that may raise, and the two agree whenever
    no collaborator raises. *)

From Stdlib Require Import String List ZArith QArith Bool Lia.
Import ListNotations.
Local Close Scope Q_scope.
Local Open Scope string_scope.
Local Open Scope list_scope.

(** Python's [+] on [str]: left associative, as in the source. *)
Infix "+:+" := String.append (at level 50, left associativity).

(** ** Python dictionaries with string keys

    [dict V] lists the items in insertion order.  A dictionary built by
    Python has pairwise distinct keys: that is [wf]. *)

Module PyDict.

Definition dict (V : Type) : Type := list (string * V).

Section Ops.
Context {V : Type}.

(** [{}] *)
Definition empty : dict V := [].

(** [d.items()] *)
Definition items (d : dict V) : list (string * V) := d.

(** [list(d.keys())] *)
Definition keys (d : dict V) : list string := map fst d.

(** [d.get(k)] *)
Fixpoint get (k : string) (d : dict V) : option V :=
  match d with
  | [] => None
  | (k', v') :: r => if String.eqb k' k then Some v' else get k r
  end.

(** [d[k] = v]: an existing key keeps its position and takes the new
    value, a new key goes to the end. *)
Fixpoint setitem (k : string) (v : V) (d : dict V) : dict V :=
  match d with
  | [] => [(k, v)]
  | (k', v') :: r =>
      if String.eqb k' k then (k', v) :: r else (k', v') :: setitem k v r
  end.

(** [d.update(other)] *)
Definition update (d other : dict V) : dict V :=
  fold_left (fun acc kv => setitem (fst kv) (snd kv) acc) (items other) d.

(** [{f(k): v for k, v in d.items()}] *)
Definition rekey (f : string -> string) (d : dict V) : dict V :=
  fold_left (fun acc kv => setitem (f (fst kv)) (snd kv) acc) (items d) empty.

Definition wf (d : dict V) : Prop := NoDup (keys d).

End Ops.

End PyDict.

(** ** Effects: a trace of collaborator calls, and exceptions *)

(** [torch.device]: the monitor reads only [device.type]. *)
Record Device : Type := { type : string; index : option Z }.

(** A logger as the monitor sees it: its identity and its
    [group_separator] property.  [log_metrics] is an effect, below. *)
Record Logger : Type := { logger_id : nat; group_separator : string }.

Inductive Exception : Type :=
| MisconfigurationException (message : string)
| CollaboratorException (description : string).
    (* any exception raised inside a collaborator, such as a RuntimeError *)

(** The calls that leave the module. *)
Inductive Event (V : Type) : Type :=
| GetDeviceStats (device : Device)
    (* trainer.accelerator.get_device_stats(device) *)
| GetCpuProcessMetrics
    (* get_cpu_process_metrics() *)
| LogMetrics (logger : Logger) (metrics : PyDict.dict V) (step : Z)
    (* logger.log_metrics(metrics, step=step) *)
| RankZeroDeprecation (message : string).
    (* rank_zero_deprecation(message) *)

Arguments GetDeviceStats {V} device.
Arguments GetCpuProcessMetrics {V}.
Arguments LogMetrics {V} logger metrics step.
Arguments RankZeroDeprecation {V} message.

Inductive Outcome (A : Type) : Type :=
| Returned (a : A)
| Raised (e : Exception).

Arguments Returned {A} a.
Arguments Raised {A} e.

(** A computation: the calls it made, in order, and how it ended. *)
Record M (V A : Type) : Type := Run { trace : list (Event V); outcome : Outcome A }.

Arguments Run {V A} trace outcome.
Arguments trace {V A} m.
Arguments outcome {V A} m.

Definition ret {V A : Type} (a : A) : M V A := Run [] (Returned a).

Definition raise {V A : Type} (e : Exception) : M V A := Run [] (Raised e).

(** A collaborator call that returns [result]; for calls that may
    raise see [Raising.invoke]. *)
Definition call {V A : Type} (ev : Event V) (result : A) : M V A :=
  Run [ev] (Returned result).

Definition bind {V A B : Type} (m : M V A) (k : A -> M V B) : M V B :=
  match outcome m with
  | Returned a => Run (trace m ++ trace (k a)) (outcome (k a))
  | Raised e => Run (trace m) (Raised e)
  end.

Declare Scope py_scope.
Delimit Scope py_scope with py.
Notation "x <- c1 ;; c2" := (bind c1 (fun x => c2))
  (at level 61, c1 at next level, right associativity) : py_scope.
Notation "c1 ;; c2" := (bind c1 (fun _ => c2))
  (at level 61, right associativity) : py_scope.
Local Open Scope py_scope.

(** [for x in l: body(x)] *)
Fixpoint for_each {V X : Type} (l : list X) (body : X -> M V unit) : M V unit :=
  match l with
  | [] => ret tt
  | x :: r => body x ;; for_each r body
  end.

(** What a trace holds. *)
Definition is_device_query {V : Type} (e : Event V) : bool :=
  match e with GetDeviceStats _ => true | _ => false end.

Definition is_process_query {V : Type} (e : Event V) : bool :=
  match e with GetCpuProcessMetrics => true | _ => false end.

Definition is_sink_call {V : Type} (e : Event V) : bool :=
  match e with LogMetrics _ _ _ => true | _ => false end.

Definition is_deprecation {V : Type} (e : Event V) : bool :=
  match e with RankZeroDeprecation _ => true | _ => false end.

Definition device_queries {V : Type} (t : list (Event V)) : list (Event V) :=
  filter is_device_query t.

Definition process_queries {V : Type} (t : list (Event V)) : list (Event V) :=
  filter is_process_query t.

Definition sink_calls {V : Type} (t : list (Event V)) : list (Event V) :=
  filter is_sink_call t.

Definition deprecations {V : Type} (t : list (Event V)) : list (Event V) :=
  filter is_deprecation t.

(** ** Python truth values *)

(** [bool(l)] of a list *)
Definition truthy_list {X : Type} (l : list X) : bool :=
  match l with [] => false | _ :: _ => true end.

(** [bool(o)] of an [Optional[bool]] *)
Definition truthy (o : option bool) : bool :=
  match o with Some b => b | None => false end.

(** [o is None] *)
Definition is_None {X : Type} (o : option X) : bool :=
  match o with None => true | Some _ => false end.

(** ** The host: [pl.Trainer] as the monitor reads it *)

Record Accelerator (V : Type) : Type :=
  { get_device_stats : Device -> PyDict.dict V }.
Arguments get_device_stats {V} a device.

Record Strategy : Type := { root_device : Device }.

Record LoggerConnector : Type := { should_update_logs : bool }.

Record Trainer (V : Type) : Type :=
  { loggers : list Logger;
    _logger_connector : LoggerConnector;
    strategy : Strategy;
    accelerator : Accelerator V;
    global_step : Z }.
Arguments loggers {V} t.
Arguments _logger_connector {V} t.
Arguments strategy {V} t.
Arguments accelerator {V} t.
Arguments global_step {V} t.

(** ** The module *)

(** [DeviceStatsMonitor.__init__]: the instance holds [cpu_stats], an
    [Optional[bool]] that defaults to [None]. *)
Record DeviceStatsMonitor : Type := { cpu_stats : option bool }.

Definition __init__ (cpu_stats : option bool) : DeviceStatsMonitor :=
  {| cpu_stats := cpu_stats |}.

(** [_prefix_metric_keys(metrics_dict, prefix, separator)] *)
Definition _prefix_metric_keys {V : Type}
    (metrics_dict : PyDict.dict V) (prefix separator : string) : PyDict.dict V :=
  PyDict.rekey (fun k => prefix +:+ separator +:+ k) metrics_dict.

Section Monitor.
Context {V : Type}.

(** [pytorch_lightning.accelerators.cpu.get_cpu_process_metrics], imported
    by the module: what the query returns when it is made. *)
Variable get_cpu_process_metrics : unit -> PyDict.dict V.

Definition log_metrics (logger : Logger) (metrics : PyDict.dict V) (step : Z)
  : M V unit :=
  call (LogMetrics logger metrics step) tt.

Definition rank_zero_deprecation (message : string) : M V unit :=
  call (RankZeroDeprecation message) tt.

(** [DeviceStatsMonitor.setup(trainer, pl_module, stage)]; [pl_module] and
    [stage] are not read. *)
Definition setup (self : DeviceStatsMonitor) (trainer : Trainer V) : M V unit :=
  if negb (truthy_list (loggers trainer)) then
    raise (MisconfigurationException
      "Cannot use `DeviceStatsMonitor` callback with `Trainer` that has no logger.")
  else ret tt.

(** Lines 78 to 86 of [_get_and_log_device_stats]: the local
    [device_stats] as the loop over the loggers finds it. *)
Definition sample_device_stats (self : DeviceStatsMonitor) (trainer : Trainer V)
  : M V (PyDict.dict V) :=
  let device_stats := PyDict.empty in
  let device := root_device (strategy trainer) in
  device_stats <-
    (if is_None (cpu_stats self) || truthy (cpu_stats self) then
       call (GetDeviceStats device)
            (get_device_stats (accelerator trainer) device)
     else ret device_stats) ;;
  if truthy (cpu_stats self) && negb (String.eqb (type device) "cpu") then
    (* Don't query CPU stats twice if CPU is accelerator *)
    other <- call GetCpuProcessMetrics (get_cpu_process_metrics tt) ;;
    ret (PyDict.update device_stats other)
  else ret device_stats.

(** [DeviceStatsMonitor._get_and_log_device_stats(trainer, pl_module, batch,
    batch_idx, key)]; [pl_module], [batch] and [batch_idx] are not read. *)
Definition _get_and_log_device_stats
    (self : DeviceStatsMonitor) (trainer : Trainer V) (key : string) : M V unit :=
  if negb (truthy_list (loggers trainer)) then
    raise (MisconfigurationException
      "Cannot use `DeviceStatsMonitor` callback with `Trainer(logger=False)`.")
  else if negb (should_update_logs (_logger_connector trainer)) then
    ret tt
  else
    device_stats <- sample_device_stats self trainer ;;
    for_each (loggers trainer) (fun logger =>
      let separator := group_separator logger in
      let prefixed_device_stats := _prefix_metric_keys device_stats key separator in
      log_metrics logger prefixed_device_stats (global_step trainer)).

Definition on_train_batch_start (self : DeviceStatsMonitor) (trainer : Trainer V)
  : M V unit :=
  _get_and_log_device_stats self trainer "on_train_batch_start".

Definition on_train_batch_end (self : DeviceStatsMonitor) (trainer : Trainer V)
  : M V unit :=
  _get_and_log_device_stats self trainer "on_train_batch_end".

(** [prefix_metric_keys(metrics_dict, prefix)], deprecated. *)
Definition prefix_metric_keys (metrics_dict : PyDict.dict V) (prefix : string)
  : M V (PyDict.dict V) :=
  rank_zero_deprecation
    ("`pytorch_lightning.callbacks.device_stats_monitor.prefix_metrics`"
     +:+ " is deprecated in v1.6 and will be removed in v1.8.") ;;
  let sep := "" in
  ret (_prefix_metric_keys metrics_dict prefix sep).

End Monitor.

(** ** The sampling call with collaborators that may raise

    The module has no [try]: an exception raised inside
    [get_device_stats], [get_cpu_process_metrics] or [log_metrics] ends
    the sampling call.  Here the same source lines are embedded once
    more, with an environment that says for every collaborator call
    whether it raises; the call is recorded in the trace either way.
    Above, every collaborator returns. *)

Module Raising.

Section Model.
Context {V : Type}.

Variable get_cpu_process_metrics : unit -> PyDict.dict V.

(** [raises history ev]: the exception, if any, with which the
    collaborator call [ev] ends when [history] lists the calls made
    before it. *)
Variable raises : list (Event V) -> Event V -> option Exception.

(** A computation that is told the calls made before it starts. *)
Definition R (A : Type) : Type := list (Event V) -> M V A.

Definition ret_ {A : Type} (a : A) : R A := fun _ => ret a.

Definition raise_ {A : Type} (e : Exception) : R A := fun _ => raise e.

Definition invoke {A : Type} (ev : Event V) (result : A) : R A :=
  fun history =>
    match raises history ev with
    | Some e => Run [ev] (Raised e)
    | None => Run [ev] (Returned result)
    end.

Definition bind_ {A B : Type} (m : R A) (k : A -> R B) : R B :=
  fun history =>
    match outcome (m history) with
    | Returned a =>
        Run (trace (m history) ++ trace (k a (history ++ trace (m history))))
            (outcome (k a (history ++ trace (m history))))
    | Raised e => Run (trace (m history)) (Raised e)
    end.

Declare Scope raising_scope.
Delimit Scope raising_scope with raising.
Notation "x <- c1 ;; c2" := (bind_ c1 (fun x => c2))
  (at level 61, c1 at next level, right associativity) : raising_scope.
Notation "c1 ;; c2" := (bind_ c1 (fun _ => c2))
  (at level 61, right associativity) : raising_scope.
Local Open Scope raising_scope.

(** [for x in l: body(x)] *)
Fixpoint for_each_ {X : Type} (l : list X) (body : X -> R unit) : R unit :=
  match l with
  | [] => ret_ tt
  | x :: r => body x ;; for_each_ r body
  end.

Definition log_metrics (logger : Logger) (metrics : PyDict.dict V) (step : Z)
  : R unit :=
  invoke (LogMetrics logger metrics step) tt.

(** Lines 78 to 86 of [_get_and_log_device_stats]. *)
Definition sample_device_stats (self : DeviceStatsMonitor) (trainer : Trainer V)
  : R (PyDict.dict V) :=
  let device_stats := PyDict.empty in
  let device := root_device (strategy trainer) in
  device_stats <-
    (if is_None (cpu_stats self) || truthy (cpu_stats self) then
       invoke (GetDeviceStats device)
              (get_device_stats (accelerator trainer) device)
     else ret_ device_stats) ;;
  if truthy (cpu_stats self) && negb (String.eqb (type device) "cpu") then
    (* Don't query CPU stats twice if CPU is accelerator *)
    other <- invoke GetCpuProcessMetrics (get_cpu_process_metrics tt) ;;
    ret_ (PyDict.update device_stats other)
  else ret_ device_stats.

(** [DeviceStatsMonitor._get_and_log_device_stats(trainer, pl_module, batch,
    batch_idx, key)] *)
Definition _get_and_log_device_stats
    (self : DeviceStatsMonitor) (trainer : Trainer V) (key : string) : R unit :=
  if negb (truthy_list (loggers trainer)) then
    raise_ (MisconfigurationException
      "Cannot use `DeviceStatsMonitor` callback with `Trainer(logger=False)`.")
  else if negb (should_update_logs (_logger_connector trainer)) then
    ret_ tt
  else
    device_stats <- sample_device_stats self trainer ;;
    for_each_ (loggers trainer) (fun logger =>
      let separator := group_separator logger in
      let prefixed_device_stats := _prefix_metric_keys device_stats key separator in
      log_metrics logger prefixed_device_stats (global_step trainer)).

Definition on_train_batch_start (self : DeviceStatsMonitor) (trainer : Trainer V)
  : R unit :=
  _get_and_log_device_stats self trainer "on_train_batch_start".

Definition on_train_batch_end (self : DeviceStatsMonitor) (trainer : Trainer V)
  : R unit :=
  _get_and_log_device_stats self trainer "on_train_batch_end".

(** Every call of a run returned, except that the last one may have
    raised, and then its exception is the outcome of the run. *)
Definition calls_return_until_last {A : Type} (m : R A) : Prop :=
  forall history t ev rest,
    trace (m history) = t ++ ev :: rest ->
    raises (history ++ t) ev = None
    \/ (rest = []
        /\ exists e, raises (history ++ t) ev = Some e
                     /\ outcome (m history) = Raised e).

(** A run that raises does so through its last call. *)
Definition raises_through_last_call {A : Type} (m : R A) : Prop :=
  forall history e,
    outcome (m history) = Raised e ->
    exists t ev,
      trace (m history) = t ++ [ev] /\ raises (history ++ t) ev = Some e.

End Model.

End Raising.


(** ** Concrete hosts

    The module never inspects a metric value; the examples take the
    values in [Q]. *)

Module Examples.
Import PyDict.

Definition cuda0 : Device := {| type := "cuda"; index := Some 0%Z |}.

Definition cpu : Device := {| type := "cpu"; index := None |}.

Definition sink1 : Logger := {| logger_id := 1; group_separator := "/" |}.

Definition sink2 : Logger := {| logger_id := 2; group_separator := "." |}.

Definition host (sinks : list Logger) (emit : bool) (device : Device)
    (stats : dict Q) (step : Z) : Trainer Q :=
  {| loggers := sinks;
     _logger_connector := {| should_update_logs := emit |};
     strategy := {| root_device := device |};
     accelerator := {| get_device_stats := fun _ => stats |};
     global_step := step |}.

Definition gpu_stats : dict Q := [("a", 1%Q); ("gpu", 2%Q)].

Definition process_stats (_ : unit) : dict Q := [("a", 3%Q); ("cpu_percent", 50%Q)].

(** A device whose own metric names already hold a hook's label. *)
Definition nested_stats : dict Q :=
  [("a", 1%Q); ("on_train_batch_start/a", 1%Q)].


Definition device_query_fails (_ : list (Event Q)) (ev : Event Q)
  : option Exception :=
  match ev with
  | GetDeviceStats _ => Some (CollaboratorException "RuntimeError")
  | _ => None
  end.


End Examples.

(** ** Facts about strings *)

Module Str.

Lemma append_empty_r (s : string) : s +:+ "" = s.
Proof. induction s as [|c s IH]; simpl; [reflexivity | now rewrite IH]. Qed.

Lemma append_inj_r (p a b : string) : p +:+ a = p +:+ b -> a = b.
Proof.
  induction p as [|c p IH]; simpl; intros H; [exact H|].
  injection H as H. now apply IH.
Qed.

Lemma eqb_append_l (p a b : string) :
  String.eqb (p +:+ a) (p +:+ b) = String.eqb a b.
Proof.
  destruct (String.eqb_spec a b) as [->|Hne].
  - apply String.eqb_refl.
  - apply String.eqb_neq. intros H. apply Hne. eapply append_inj_r, H.
Qed.

Lemma append_assoc (a b c : string) : a +:+ b +:+ c = a +:+ (b +:+ c).
Proof. induction a as [|x a IH]; simpl; [reflexivity | now rewrite IH]. Qed.

(** The labels of the two hooks part ways before any separator. *)
Lemma hook_labels_apart (s1 k1 s2 k2 : string) :
  "on_train_batch_start" +:+ s1 +:+ k1 <> "on_train_batch_end" +:+ s2 +:+ k2.
Proof. simpl. intros H. discriminate H. Qed.

End Str.

(** ** Facts about dictionaries *)

Module PyDictFacts.
Import PyDict.

Section Facts.
Context {V : Type}.

Lemma keys_app (a b : dict V) : keys (a ++ b) = keys a ++ keys b.
Proof. apply map_app. Qed.

Lemma setitem_fresh (k : string) (v : V) (d : dict V) :
  ~ In k (keys d) -> setitem k v d = d ++ [(k, v)].
Proof.
  induction d as [|[k' v'] r IH]; simpl; intros Hk; [reflexivity|].
  destruct (String.eqb_spec k' k) as [->|Hne].
  - exfalso. apply Hk. now left.
  - rewrite IH; [reflexivity | tauto].
Qed.

Lemma keys_setitem_in (k : string) (v : V) (d : dict V) :
  In k (keys d) -> keys (setitem k v d) = keys d.
Proof.
  induction d as [|[k' v'] r IH]; simpl; intros Hk; [contradiction|].
  destruct (String.eqb_spec k' k) as [->|Hne]; simpl; [reflexivity|].
  rewrite IH; [reflexivity|]. destruct Hk; [contradiction | assumption].
Qed.

Lemma wf_setitem (k : string) (v : V) (d : dict V) :
  wf d -> wf (setitem k v d).
Proof.
  unfold wf. intros Hd.
  destruct (in_dec string_dec k (keys d)) as [Hin|Hout].
  - now rewrite keys_setitem_in.
  - rewrite setitem_fresh, keys_app by assumption. simpl.
    apply NoDup_app; [assumption | repeat constructor; intros [] |].
    intros x Hx [<-|[]]. contradiction.
Qed.

Lemma get_setitem_same (k : string) (v : V) (d : dict V) :
  get k (setitem k v d) = Some v.
Proof.
  induction d as [|[k' v'] r IH]; simpl.
  - now rewrite String.eqb_refl.
  - destruct (String.eqb_spec k' k) as [->|Hne]; simpl.
    + now rewrite String.eqb_refl.
    + apply String.eqb_neq in Hne. now rewrite Hne.
Qed.

Lemma get_setitem_other (k k0 : string) (v : V) (d : dict V) :
  k <> k0 -> get k0 (setitem k v d) = get k0 d.
Proof.
  intros Hne. induction d as [|[k' v'] r IH]; simpl.
  - apply String.eqb_neq in Hne. now rewrite Hne.
  - destruct (String.eqb_spec k' k) as [->|Hne']; simpl.
    + apply String.eqb_neq in Hne. now rewrite Hne.
    + now rewrite IH.
Qed.

Lemma wf_update (d other : dict V) : wf d -> wf (update d other).
Proof.
  unfold update, items. revert d.
  induction other as [|[k v] r IH]; simpl; intros d Hd; [exact Hd|].
  apply IH, wf_setitem, Hd.
Qed.

Lemma get_update_absent (k : string) (d other : dict V) :
  ~ In k (keys other) -> get k (update d other) = get k d.
Proof.
  unfold update, items. revert d.
  induction other as [|[k1 v1] r IH]; simpl; intros d Hk; [reflexivity|].
  rewrite IH by tauto. apply get_setitem_other. tauto.
Qed.

(** Last write wins: a key of [other] takes [other]'s value. *)
Lemma get_update_present (k : string) (v : V) (d other : dict V) :
  wf other -> get k other = Some v -> get k (update d other) = Some v.
Proof.
  unfold wf. revert d.
  induction other as [|[k1 v1] r IH]; simpl; intros d Hwf Hget;
    [discriminate|].
  inversion Hwf as [|? ? Hnotin Hr]; subst.
  change (get k (update (setitem k1 v1 d) r) = Some v).
  destruct (String.eqb_spec k1 k) as [->|Hne].
  - injection Hget as ->.
    rewrite get_update_absent by assumption. apply get_setitem_same.
  - now apply IH.
Qed.

(** On distinct keys and an injective renaming, the comprehension is a
    plain map over the items, in their order. *)
Lemma rekey_acc (f : string -> string) (l acc : dict V) :
  NoDup (keys acc ++ map f (keys l)) ->
  fold_left (fun a kv => setitem (f (fst kv)) (snd kv) a) l acc
  = acc ++ map (fun kv => (f (fst kv), snd kv)) l.
Proof.
  revert acc. induction l as [|[k v] r IH]; simpl; intros acc Hnd.
  - now rewrite app_nil_r.
  - assert (Hfresh : ~ In (f k) (keys acc)).
    { intros Hin. apply NoDup_remove_2 in Hnd. apply Hnd.
      apply in_or_app. now left. }
    rewrite setitem_fresh by assumption.
    rewrite IH.
    + now rewrite <- app_assoc.
    + rewrite keys_app, <- app_assoc. exact Hnd.
Qed.

Lemma rekey_map (f : string -> string) (d : dict V) :
  (forall a b, f a = f b -> a = b) -> wf d ->
  rekey f d = map (fun kv => (f (fst kv), snd kv)) d.
Proof.
  intros Hinj Hwf. unfold rekey, items, empty.
  rewrite rekey_acc; [reflexivity|]. simpl.
  unfold wf in Hwf. induction Hwf as [|k l Hk _ IH]; simpl; constructor.
  - rewrite in_map_iff. intros (k' & Hk' & Hin).
    apply Hinj in Hk'. now subst.
  - exact IH.
Qed.

Lemma get_map_rekey (p k : string) (d : dict V) :
  get (p +:+ k) (map (fun kv => (p +:+ fst kv, snd kv)) d) = get k d.
Proof.
  induction d as [|[k' v'] r IH]; simpl; [reflexivity|].
  now rewrite Str.eqb_append_l, IH.
Qed.

Lemma keys_map_rekey (f : string -> string) (d : dict V) :
  keys (map (fun kv => (f (fst kv), snd kv)) d) = map f (keys d).
Proof. unfold keys. rewrite !map_map. reflexivity. Qed.

Lemma wf_map_rekey (f : string -> string) (d : dict V) :
  (forall a b, f a = f b -> a = b) -> wf d ->
  wf (map (fun kv => (f (fst kv), snd kv)) d).
Proof.
  intros Hinj Hwf. unfold wf. rewrite keys_map_rekey.
  unfold wf in Hwf. induction Hwf as [|k l Hk _ IH]; simpl; constructor.
  - rewrite in_map_iff. intros (k' & Hk' & Hin).
    apply Hinj in Hk'. now subst.
  - exact IH.
Qed.

(** A renamed dictionary holds a key together with its renaming exactly
    when the dictionary itself does. *)
Lemma nested_keys_map_rekey (p : string) (d : dict V) :
  let renamed := map (fun kv => (p +:+ fst kv, snd kv)) d in
  (exists k, In k (keys renamed) /\ In (p +:+ k) (keys renamed))
  <-> (exists k, In k (keys d) /\ In (p +:+ k) (keys d)).
Proof.
  intros renamed. unfold renamed.
  rewrite (keys_map_rekey (fun k => p +:+ k)).
  split.
  - intros (k & Hk & Hpk).
    apply in_map_iff in Hk. destruct Hk as (k0 & <- & Hk0).
    apply in_map_iff in Hpk. destruct Hpk as (k1 & Heq & Hk1).
    apply Str.append_inj_r in Heq. subst k1.
    exists k0. split; assumption.
  - intros (k & Hk & Hpk).
    exists (p +:+ k). split; now apply in_map.
Qed.

Lemma get_None_notin (k : string) (d : dict V) :
  get k d = None <-> ~ In k (keys d).
Proof.
  induction d as [|[k' v'] r IH]; simpl.
  - tauto.
  - destruct (String.eqb_spec k' k) as [->|Hne].
    + split; [discriminate | intros H; exfalso; apply H; now left].
    + rewrite IH. tauto.
Qed.

(** Lookup after [update]: [other] first, then [d]. *)
Lemma get_update (k : string) (d other : dict V) :
  wf other ->
  get k (update d other)
  = match get k other with Some v => Some v | None => get k d end.
Proof.
  intros Hwf. destruct (get k other) as [v|] eqn:Hk.
  - now apply get_update_present.
  - apply get_update_absent. now apply get_None_notin.
Qed.

Lemma keys_setitem_iff (x k : string) (v : V) (d : dict V) :
  In x (keys (setitem k v d)) <-> x = k \/ In x (keys d).
Proof.
  induction d as [|[k' v'] r IH]; simpl.
  - intuition.
  - destruct (String.eqb_spec k' k) as [->|Hne]; simpl.
    + intuition.
    + rewrite IH. intuition.
Qed.

(** The keys of a comprehension are the renamed keys, distinct or not. *)
Lemma keys_rekey_iff (f : string -> string) (x : string) (d : dict V) :
  In x (keys (rekey f d)) <-> exists k, In k (keys d) /\ x = f k.
Proof.
  unfold rekey, items, empty.
  assert (Hacc : forall l acc : dict V,
    In x (keys (fold_left (fun a kv => setitem (f (fst kv)) (snd kv) a) l acc))
    <-> In x (keys acc) \/ exists k, In k (keys l) /\ x = f k).
  { induction l as [|[k v] r IH]; simpl; intros acc.
    - split; [now left | intros [H|(k & [] & _)]; exact H].
    - rewrite IH, keys_setitem_iff. split.
      + intros [[->|H]|(k0 & Hk0 & ->)]; eauto.
      + intros [H|(k0 & [<-|Hk0] & ->)]; eauto. }
  rewrite Hacc. simpl. split.
  - intros [[]|H]; exact H.
  - now right.
Qed.

Lemma rekey_ext (f g : string -> string) (d : dict V) :
  (forall k, f k = g k) -> rekey f d = rekey g d.
Proof.
  intros Hfg. unfold rekey, items. generalize (@empty V).
  induction d as [|[k v] r IH]; simpl; intros acc; [reflexivity|].
  now rewrite Hfg, IH.
Qed.

Lemma map_rekey_inj (f : string -> string) (d d' : dict V) :
  (forall a b, f a = f b -> a = b) ->
  map (fun kv => (f (fst kv), snd kv)) d
  = map (fun kv => (f (fst kv), snd kv)) d' ->
  d = d'.
Proof.
  intros Hinj. revert d'.
  induction d as [|[k v] r IH]; intros [|[k' v'] r']; simpl; intros H;
    try discriminate; [reflexivity|].
  injection H as Hk Hv Hr. apply Hinj in Hk. subst. f_equal. now apply IH.
Qed.

(** Key order after [update]: the keys of [d] stay where they are, the
    keys of [other] that [d] lacks follow in [other]'s order. *)
Lemma keys_update (d other : dict V) :
  wf other ->
  keys (update d other)
  = keys d
    ++ filter (fun k => negb (existsb (String.eqb k) (keys d))) (keys other).
Proof.
  unfold wf. revert d.
  induction other as [|[k1 v1] r IH]; intros d Hwf.
  - simpl. now rewrite app_nil_r.
  - inversion Hwf as [|? ? Hnotin Hr]; subst.
    change (update d ((k1, v1) :: r)) with (update (setitem k1 v1 d) r).
    rewrite IH by assumption. simpl.
    destruct (existsb (String.eqb k1) (keys d)) eqn:Hex; simpl.
    + apply existsb_exists in Hex. destruct Hex as (x & Hx & Heq).
      apply String.eqb_eq in Heq. subst x.
      now rewrite keys_setitem_in.
    + assert (Hout : ~ In k1 (keys d)).
      { intros Hin.
        assert (Htrue : existsb (String.eqb k1) (keys d) = true).
        { apply existsb_exists. exists k1. split; [exact Hin|].
          apply String.eqb_refl. }
        congruence. }
      rewrite setitem_fresh, keys_app by assumption. simpl.
      rewrite <- app_assoc. simpl. do 2 f_equal.
      apply filter_ext_in. intros k Hk.
      rewrite existsb_app. simpl. rewrite orb_false_r.
      destruct (String.eqb_spec k k1) as [->|Hne]; [contradiction|].
      now rewrite orb_false_r.
Qed.

End Facts.

End PyDictFacts.

(** ** Facts about the monitor *)

Module MonitorFacts.
Import PyDict PyDictFacts.

Section Facts.
Context {V : Type}.
Variable get_cpu_process_metrics : unit -> dict V.

(** The renaming of [_prefix_metric_keys] is injective. *)
Lemma prefix_inj (prefix separator a b : string) :
  prefix +:+ separator +:+ a = prefix +:+ separator +:+ b -> a = b.
Proof. apply Str.append_inj_r. Qed.

Lemma prefix_metric_keys_map (d : dict V) (prefix separator : string) :
  wf d ->
  _prefix_metric_keys d prefix separator
  = map (fun kv => (prefix +:+ separator +:+ fst kv, snd kv)) d.
Proof.
  intros Hwf. unfold _prefix_metric_keys.
  apply (rekey_map (fun k => prefix +:+ separator +:+ k)); [|exact Hwf].
  intros a b. apply prefix_inj.
Qed.

(** What the sampling part does, by [cpu_stats] and device kind. *)
Lemma sample_cases (self : DeviceStatsMonitor) (trainer : Trainer V) :
  let device := root_device (strategy trainer) in
  let stats := get_device_stats (accelerator trainer) device in
  sample_device_stats get_cpu_process_metrics self trainer =
  match cpu_stats self with
  | Some false => Run [] (Returned empty)
  | None => Run [GetDeviceStats device] (Returned stats)
  | Some true =>
      if String.eqb (type device) "cpu"
      then Run [GetDeviceStats device] (Returned stats)
      else Run [GetDeviceStats device; GetCpuProcessMetrics]
               (Returned (update stats (get_cpu_process_metrics tt)))
  end.
Proof.
  unfold sample_device_stats.
  destruct (cpu_stats self) as [[|]|]; simpl; try reflexivity.
  destruct (String.eqb (type (root_device (strategy trainer))) "cpu");
    reflexivity.
Qed.

(** The sampling part returns, and calls no logger. *)
Lemma sample_returns (self : DeviceStatsMonitor) (trainer : Trainer V) :
  exists d, outcome (sample_device_stats get_cpu_process_metrics self trainer) = Returned d.
Proof.
  rewrite sample_cases.
  destruct (cpu_stats self) as [[|]|]; simpl; eauto.
  destruct (String.eqb _ _); simpl; eauto.
Qed.

Lemma sample_no_sink_call (self : DeviceStatsMonitor) (trainer : Trainer V) :
  sink_calls (trace (sample_device_stats get_cpu_process_metrics self trainer)) = [].
Proof.
  rewrite sample_cases.
  destruct (cpu_stats self) as [[|]|]; simpl; try reflexivity.
  destruct (String.eqb _ _); reflexivity.
Qed.

Lemma sample_wf (self : DeviceStatsMonitor) (trainer : Trainer V) (d : dict V) :
  wf (get_device_stats (accelerator trainer) (root_device (strategy trainer))) ->
  outcome (sample_device_stats get_cpu_process_metrics self trainer) = Returned d -> wf d.
Proof.
  intros Hwf. rewrite sample_cases.
  destruct (cpu_stats self) as [[|]|]; simpl.
  - destruct (String.eqb _ _); simpl; intros [= <-];
      [exact Hwf | now apply wf_update].
  - intros [= <-]. constructor.
  - intros [= <-]. exact Hwf.
Qed.

(** The loop over the loggers makes one call per logger, in order. *)
Lemma for_each_log_metrics (f : Logger -> dict V) (step : Z) (l : list Logger) :
  for_each l (fun logger => log_metrics logger (f logger) step)
  = Run (map (fun logger => LogMetrics logger (f logger) step) l) (Returned tt).
Proof.
  induction l as [|lg l IH]; simpl; [reflexivity|].
  unfold bind. simpl. now rewrite IH.
Qed.

Lemma sink_calls_app (t1 t2 : list (Event V)) :
  sink_calls (t1 ++ t2) = sink_calls t1 ++ sink_calls t2.
Proof. apply filter_app. Qed.

Lemma sink_calls_log (f : Logger -> dict V) (step : Z) (l : list Logger) :
  sink_calls (map (fun logger => LogMetrics logger (f logger) step) l)
  = map (fun logger => LogMetrics logger (f logger) step) l.
Proof. induction l as [|lg l IH]; simpl; [reflexivity | now rewrite IH]. Qed.

Lemma device_queries_log (f : Logger -> dict V) (step : Z) (l : list Logger) :
  device_queries (map (fun logger => LogMetrics logger (f logger) step) l) = [].
Proof. induction l as [|lg l IH]; simpl; [reflexivity | exact IH]. Qed.

Lemma process_queries_log (f : Logger -> dict V) (step : Z) (l : list Logger) :
  process_queries (map (fun logger => LogMetrics logger (f logger) step) l) = [].
Proof. induction l as [|lg l IH]; simpl; [reflexivity | exact IH]. Qed.

Lemma truthy_list_nonempty {X : Type} (l : list X) :
  l <> [] -> truthy_list l = true.
Proof. destruct l; [congruence | reflexivity]. Qed.

(** A call that emits: the sampling part, then one [log_metrics] per
    logger on the sampled snapshot. *)
Lemma emitting_call (self : DeviceStatsMonitor) (trainer : Trainer V)
    (key : string) (t : list (Event V)) (d : dict V) :
  loggers trainer <> [] ->
  should_update_logs (_logger_connector trainer) = true ->
  sample_device_stats get_cpu_process_metrics self trainer = Run t (Returned d) ->
  _get_and_log_device_stats get_cpu_process_metrics self trainer key
  = Run (t ++ map (fun logger =>
                     LogMetrics logger
                       (_prefix_metric_keys d key (group_separator logger))
                       (global_step trainer))
                  (loggers trainer))
        (Returned tt).
Proof.
  intros Hl Hs Hd. unfold _get_and_log_device_stats.
  rewrite (truthy_list_nonempty _ Hl), Hs, Hd. simpl.
  unfold bind. simpl.
  now rewrite (for_each_log_metrics
                 (fun lg => _prefix_metric_keys d key (group_separator lg))).
Qed.

(** A call that does not emit. *)
Lemma no_logger_call (self : DeviceStatsMonitor) (trainer : Trainer V)
    (key : string) :
  loggers trainer = [] ->
  _get_and_log_device_stats get_cpu_process_metrics self trainer key
  = Run [] (Raised (MisconfigurationException
      "Cannot use `DeviceStatsMonitor` callback with `Trainer(logger=False)`.")).
Proof. intros Hl. unfold _get_and_log_device_stats. now rewrite Hl. Qed.

Lemma skipped_call (self : DeviceStatsMonitor) (trainer : Trainer V)
    (key : string) :
  loggers trainer <> [] ->
  should_update_logs (_logger_connector trainer) = false ->
  _get_and_log_device_stats get_cpu_process_metrics self trainer key = Run [] (Returned tt).
Proof.
  intros Hl Hs. unfold _get_and_log_device_stats.
  now rewrite (truthy_list_nonempty _ Hl), Hs.
Qed.

(** Every run of the sampling hook, by its two guards. *)
Lemma call_cases (self : DeviceStatsMonitor) (trainer : Trainer V)
    (key : string) :
  (loggers trainer = []
   /\ _get_and_log_device_stats get_cpu_process_metrics self trainer key
      = Run [] (Raised (MisconfigurationException
          "Cannot use `DeviceStatsMonitor` callback with `Trainer(logger=False)`.")))
  \/ (loggers trainer <> []
      /\ should_update_logs (_logger_connector trainer) = false
      /\ _get_and_log_device_stats get_cpu_process_metrics self trainer key
         = Run [] (Returned tt))
  \/ (loggers trainer <> []
      /\ should_update_logs (_logger_connector trainer) = true
      /\ exists t d,
           sample_device_stats get_cpu_process_metrics self trainer
           = Run t (Returned d)
           /\ _get_and_log_device_stats get_cpu_process_metrics self trainer key
              = Run (t ++ map (fun logger =>
                                 LogMetrics logger
                                   (_prefix_metric_keys d key
                                      (group_separator logger))
                                   (global_step trainer))
                              (loggers trainer))
                    (Returned tt)).
Proof.
  destruct (loggers trainer) as [|lg l] eqn:Hl.
  { left. split; [reflexivity|]. now apply no_logger_call. }
  assert (Hne : loggers trainer <> []) by (rewrite Hl; discriminate).
  rewrite <- Hl. right.
  destruct (should_update_logs (_logger_connector trainer)) eqn:Hs.
  - right. repeat split; try assumption.
    destruct (sample_device_stats get_cpu_process_metrics self trainer)
      as [t o] eqn:Hsample.
    destruct (sample_returns self trainer) as [d Hd].
    rewrite Hsample in Hd. simpl in Hd. subst o.
    exists t, d. split; [reflexivity|]. now apply emitting_call.
  - left. repeat split; try assumption. now apply skipped_call.
Qed.

Lemma device_queries_app (t1 t2 : list (Event V)) :
  device_queries (t1 ++ t2) = device_queries t1 ++ device_queries t2.
Proof. apply filter_app. Qed.

Lemma process_queries_app (t1 t2 : list (Event V)) :
  process_queries (t1 ++ t2) = process_queries t1 ++ process_queries t2.
Proof. apply filter_app. Qed.

Lemma deprecations_log (f : Logger -> dict V) (step : Z) (l : list Logger) :
  deprecations (map (fun logger => LogMetrics logger (f logger) step) l) = [].
Proof. induction l as [|lg l IH]; simpl; [reflexivity | exact IH]. Qed.

Lemma deprecations_app (t1 t2 : list (Event V)) :
  deprecations (t1 ++ t2) = deprecations t1 ++ deprecations t2.
Proof. apply filter_app. Qed.

(** What a [log_metrics] call found in the trace of a sampling call
    carries. *)
Lemma logged_mapping (self : DeviceStatsMonitor) (trainer : Trainer V)
    (key : string) (logger : Logger) (metrics : dict V) (step : Z) :
  In (LogMetrics logger metrics step)
     (trace (_get_and_log_device_stats get_cpu_process_metrics self trainer key)) ->
  In logger (loggers trainer)
  /\ step = global_step trainer
  /\ exists d,
       outcome (sample_device_stats get_cpu_process_metrics self trainer)
       = Returned d
       /\ metrics = _prefix_metric_keys d key (group_separator logger).
Proof.
  destruct (call_cases self trainer key)
    as [(Hl & ->) | [(Hl & Hs & ->) | (Hl & Hs & t & d & Hsample & ->)]];
    simpl; try contradiction.
  intros Hin. apply in_app_or in Hin. destruct Hin as [Hin|Hin].
  - exfalso.
    pose proof (sample_no_sink_call self trainer) as Ht.
    rewrite Hsample in Ht. simpl in Ht.
    assert (Hf : In (LogMetrics logger metrics step) (sink_calls t))
      by (apply filter_In; split; [exact Hin | reflexivity]).
    rewrite Ht in Hf. exact Hf.
  - apply in_map_iff in Hin. destruct Hin as (lg & Heq & Hlg).
    injection Heq as -> <- <-.
    repeat split; try assumption.
    exists d. split; [now rewrite Hsample | reflexivity].
Qed.

End Facts.

End MonitorFacts.

(** ** Facts about the sampling call with raising collaborators *)

Module RaisingFacts.
Import PyDict PyDictFacts MonitorFacts.

Section Facts.
Context {V : Type}.
Variable get_cpu_process_metrics : unit -> dict V.
Variable raises : list (Event V) -> Event V -> option Exception.

Lemma singleton_split {X : Type} (x y : X) (t rest : list X) :
  [x] = t ++ y :: rest -> t = [] /\ y = x /\ rest = [].
Proof.
  destruct t as [|z t]; simpl; intros H.
  - injection H as -> <-. repeat split.
  - injection H as _ H. destruct t; discriminate H.
Qed.

(** *** Calls return until the last *)

Lemma ret_calls_return {A : Type} (a : A) :
  Raising.calls_return_until_last raises (Raising.ret_ a).
Proof. intros h t ev rest H. destruct t; discriminate H. Qed.

Lemma raise_calls_return {A : Type} (e : Exception) :
  Raising.calls_return_until_last raises (@Raising.raise_ V A e).
Proof. intros h t ev rest H. destruct t; discriminate H. Qed.

Lemma invoke_calls_return {A : Type} (ev : Event V) (result : A) :
  Raising.calls_return_until_last raises (Raising.invoke raises ev result).
Proof.
  intros h t ev' rest H. unfold Raising.invoke in *.
  destruct (raises h ev) as [e|] eqn:Hr; simpl in H;
    apply singleton_split in H; destruct H as (-> & -> & ->);
    rewrite app_nil_r, Hr.
  - right. split; [reflexivity|]. exists e. split; reflexivity.
  - now left.
Qed.

Lemma bind_calls_return {A B : Type}
    (m : Raising.R A) (k : A -> Raising.R B) :
  Raising.calls_return_until_last raises m ->
  (forall a, Raising.calls_return_until_last raises (k a)) ->
  Raising.calls_return_until_last raises (Raising.bind_ m k).
Proof.
  intros Hm Hk h t ev rest H. unfold Raising.bind_ in *.
  destruct (outcome (m h)) as [a|e] eqn:Ho; simpl in *.
  - apply app_eq_app in H. destruct H as (l & [[H1 H2]|[H1 H2]]).
    + destruct l as [|ev' l]; simpl in H2.
      * rewrite app_nil_r in H1. subst t.
        destruct (Hk a (h ++ trace (m h)) [] ev rest (eq_sym H2))
          as [Hn|(Hrest & e & He & Hout)].
        -- left. now rewrite app_nil_r in Hn.
        -- right. split; [exact Hrest|]. exists e.
           rewrite app_nil_r in He. split; assumption.
      * injection H2 as <- ->.
        destruct (Hm h t ev l H1) as [Hn|(_ & e & _ & Hout)].
        -- now left.
        -- rewrite Ho in Hout. discriminate Hout.
    + subst t.
      destruct (Hk a (h ++ trace (m h)) l ev rest H2)
        as [Hn|(Hrest & e & He & Hout)].
      * left. now rewrite app_assoc.
      * right. split; [exact Hrest|]. exists e.
        rewrite app_assoc. split; assumption.
  - destruct (Hm h t ev rest H) as [Hn|(Hrest & e' & He & Hout)].
    + now left.
    + right. split; [exact Hrest|]. exists e'. split; [exact He|].
      rewrite Ho in Hout. injection Hout as ->. reflexivity.
Qed.

Lemma for_each_calls_return {X : Type} (l : list X)
    (body : X -> Raising.R unit) :
  (forall x, Raising.calls_return_until_last raises (body x)) ->
  Raising.calls_return_until_last raises (Raising.for_each_ l body).
Proof.
  intros Hbody. induction l as [|x l IH]; simpl.
  - apply ret_calls_return.
  - apply bind_calls_return; [apply Hbody | intros _; exact IH].
Qed.

Lemma sample_calls_return (self : DeviceStatsMonitor) (trainer : Trainer V) :
  Raising.calls_return_until_last raises
    (Raising.sample_device_stats get_cpu_process_metrics raises self trainer).
Proof.
  unfold Raising.sample_device_stats. apply bind_calls_return.
  - destruct (is_None (cpu_stats self) || truthy (cpu_stats self));
      [apply invoke_calls_return | apply ret_calls_return].
  - intros d.
    destruct (truthy (cpu_stats self)
              && negb (String.eqb (type (root_device (strategy trainer))) "cpu")).
    + apply bind_calls_return; [apply invoke_calls_return|].
      intros other. apply ret_calls_return.
    + apply ret_calls_return.
Qed.

Lemma get_and_log_calls_return (self : DeviceStatsMonitor)
    (trainer : Trainer V) (key : string) :
  Raising.calls_return_until_last raises
    (Raising._get_and_log_device_stats get_cpu_process_metrics raises
       self trainer key).
Proof.
  unfold Raising._get_and_log_device_stats.
  destruct (negb (truthy_list (loggers trainer))); [apply raise_calls_return|].
  destruct (negb (should_update_logs (_logger_connector trainer)));
    [apply ret_calls_return|].
  apply bind_calls_return; [apply sample_calls_return|].
  intros d. apply for_each_calls_return. intros lg.
  apply invoke_calls_return.
Qed.

(** *** A raise comes through the last call *)

Lemma ret_raises_through {A : Type} (a : A) :
  Raising.raises_through_last_call raises (Raising.ret_ a).
Proof. intros h e H. discriminate H. Qed.

Lemma invoke_raises_through {A : Type} (ev : Event V) (result : A) :
  Raising.raises_through_last_call raises (Raising.invoke raises ev result).
Proof.
  intros h e H. unfold Raising.invoke in *.
  destruct (raises h ev) as [e'|] eqn:Hr; simpl in H; [|discriminate H].
  injection H as ->. exists [], ev. simpl.
  rewrite app_nil_r. split; [reflexivity | exact Hr].
Qed.

Lemma bind_raises_through {A B : Type}
    (m : Raising.R A) (k : A -> Raising.R B) :
  Raising.raises_through_last_call raises m ->
  (forall a, Raising.raises_through_last_call raises (k a)) ->
  Raising.raises_through_last_call raises (Raising.bind_ m k).
Proof.
  intros Hm Hk h e H. unfold Raising.bind_ in *.
  destruct (outcome (m h)) as [a|e'] eqn:Ho; simpl in *.
  - destruct (Hk a _ e H) as (t & ev & Ht & He).
    exists (trace (m h) ++ t), ev. rewrite Ht.
    split; [now rewrite app_assoc | now rewrite app_assoc].
  - injection H as ->. exact (Hm h e Ho).
Qed.

Lemma for_each_raises_through {X : Type} (l : list X)
    (body : X -> Raising.R unit) :
  (forall x, Raising.raises_through_last_call raises (body x)) ->
  Raising.raises_through_last_call raises (Raising.for_each_ l body).
Proof.
  intros Hbody. induction l as [|x l IH]; simpl.
  - apply ret_raises_through.
  - apply bind_raises_through; [apply Hbody | intros _; exact IH].
Qed.

Lemma sample_raises_through (self : DeviceStatsMonitor) (trainer : Trainer V) :
  Raising.raises_through_last_call raises
    (Raising.sample_device_stats get_cpu_process_metrics raises self trainer).
Proof.
  unfold Raising.sample_device_stats. apply bind_raises_through.
  - destruct (is_None (cpu_stats self) || truthy (cpu_stats self));
      [apply invoke_raises_through | apply ret_raises_through].
  - intros d.
    destruct (truthy (cpu_stats self)
              && negb (String.eqb (type (root_device (strategy trainer))) "cpu")).
    + apply bind_raises_through; [apply invoke_raises_through|].
      intros other. apply ret_raises_through.
    + apply ret_raises_through.
Qed.

(** *** The shape of a run *)

(** The sampling part, by [cpu_stats], device kind and what the two
    queries do. *)
Lemma sample_cases_ (self : DeviceStatsMonitor) (trainer : Trainer V)
    (h : list (Event V)) :
  let device := root_device (strategy trainer) in
  let stats := get_device_stats (accelerator trainer) device in
  Raising.sample_device_stats get_cpu_process_metrics raises self trainer h =
  match cpu_stats self with
  | Some false => Run [] (Returned empty)
  | None =>
      match raises h (GetDeviceStats device) with
      | Some e => Run [GetDeviceStats device] (Raised e)
      | None => Run [GetDeviceStats device] (Returned stats)
      end
  | Some true =>
      match raises h (GetDeviceStats device) with
      | Some e => Run [GetDeviceStats device] (Raised e)
      | None =>
          if String.eqb (type device) "cpu"
          then Run [GetDeviceStats device] (Returned stats)
          else
            match raises (h ++ [GetDeviceStats device]) GetCpuProcessMetrics with
            | Some e =>
                Run [GetDeviceStats device; GetCpuProcessMetrics] (Raised e)
            | None =>
                Run [GetDeviceStats device; GetCpuProcessMetrics]
                    (Returned (update stats (get_cpu_process_metrics tt)))
            end
      end
  end.
Proof.
  unfold Raising.sample_device_stats, Raising.bind_, Raising.invoke,
    Raising.ret_.
  destruct (cpu_stats self) as [[|]|]; simpl.
  - destruct (raises h (GetDeviceStats (root_device (strategy trainer))));
      simpl; [reflexivity|].
    destruct (String.eqb (type (root_device (strategy trainer))) "cpu");
      simpl; [reflexivity|].
    destruct (raises (h ++ [GetDeviceStats (root_device (strategy trainer))])
                GetCpuProcessMetrics); reflexivity.
  - reflexivity.
  - destruct (raises h (GetDeviceStats (root_device (strategy trainer))));
      reflexivity.
Qed.


Lemma invoke_raised {A : Type} (ev : Event V) (result : A)
    (h : list (Event V)) (e : Exception) :
  raises h ev = Some e ->
  Raising.invoke raises ev result h = Run [ev] (Raised e).
Proof. intros H. unfold Raising.invoke. now rewrite H. Qed.

Lemma invoke_returned {A : Type} (ev : Event V) (result : A)
    (h : list (Event V)) :
  raises h ev = None ->
  Raising.invoke raises ev result h = Run [ev] (Returned result).
Proof. intros H. unfold Raising.invoke. now rewrite H. Qed.

(** The loop calls the loggers in order and stops after a call that
    raises. *)
Lemma for_each_log_prefix (f : Logger -> dict V) (step : Z)
    (l : list Logger) (h : list (Event V)) :
  let calls := map (fun logger => LogMetrics logger (f logger) step) l in
  let r := Raising.for_each_ l
             (fun logger => Raising.log_metrics raises logger (f logger) step) h in
  exists n,
    trace r = firstn n calls
    /\ (outcome r = Returned tt -> trace r = calls).
Proof.
  unfold Raising.log_metrics. revert h.
  induction l as [|lg l IH]; intros h; simpl.
  - exists 0. split; reflexivity.
  - unfold Raising.bind_.
    destruct (raises h (LogMetrics lg (f lg) step)) as [e|] eqn:Hr.
    + rewrite (invoke_raised _ _ _ _ Hr). simpl.
      exists 1. split; [reflexivity | discriminate].
    + rewrite (invoke_returned _ _ _ Hr). simpl.
      destruct (IH (h ++ [LogMetrics lg (f lg) step])) as (n & Hn & Hall).
      exists (S n). simpl. split.
      * f_equal. exact Hn.
      * intros Hret. f_equal. now apply Hall.
Qed.


Lemma filter_firstn_none {X : Type} (p : X -> bool) (n : nat) (l : list X) :
  filter p l = [] -> filter p (firstn n l) = [].
Proof.
  revert n. induction l as [|x l IH]; intros [|n]; simpl; try reflexivity.
  destruct (p x); [discriminate | apply IH].
Qed.


(** Every run of the sampling hook, by its two guards and by how the
    sampling part ends. *)
Lemma run_cases_ (self : DeviceStatsMonitor) (trainer : Trainer V)
    (key : string) (h : list (Event V)) :
  let run := Raising._get_and_log_device_stats get_cpu_process_metrics raises
               self trainer key h in
  let s := Raising.sample_device_stats get_cpu_process_metrics raises
             self trainer h in
  (loggers trainer = []
   /\ run = Run [] (Raised (MisconfigurationException
        "Cannot use `DeviceStatsMonitor` callback with `Trainer(logger=False)`.")))
  \/ (loggers trainer <> []
      /\ should_update_logs (_logger_connector trainer) = false
      /\ run = Run [] (Returned tt))
  \/ (loggers trainer <> []
      /\ should_update_logs (_logger_connector trainer) = true
      /\ ((exists e, outcome s = Raised e /\ run = Run (trace s) (Raised e))
          \/ (exists d n,
                outcome s = Returned d
                /\ trace run
                   = trace s
                     ++ firstn n
                          (map (fun logger =>
                                  LogMetrics logger
                                    (_prefix_metric_keys d key
                                       (group_separator logger))
                                    (global_step trainer))
                               (loggers trainer))
                /\ (outcome run = Returned tt ->
                    trace run
                    = trace s
                      ++ map (fun logger =>
                                LogMetrics logger
                                  (_prefix_metric_keys d key
                                     (group_separator logger))
                                  (global_step trainer))
                             (loggers trainer))))).
Proof.
  intros run s. unfold run, Raising._get_and_log_device_stats.
  destruct (loggers trainer) as [|lg0 l0] eqn:Hl.
  { left. split; reflexivity. }
  right. rewrite <- Hl.
  assert (Hne : loggers trainer <> []) by (rewrite Hl; discriminate).
  rewrite (truthy_list_nonempty _ Hne). simpl.
  destruct (should_update_logs (_logger_connector trainer)) eqn:Hs; simpl.
  2: { left. repeat split; assumption. }
  right. repeat split; try assumption.
  unfold Raising.bind_. fold s.
  destruct (outcome s) as [d|e] eqn:Ho.
  - right.
    destruct (for_each_log_prefix
                (fun lg => _prefix_metric_keys d key (group_separator lg))
                (global_step trainer) (loggers trainer) (h ++ trace s))
      as (n & Hn & Hall).
    exists d, n. simpl. split; [reflexivity|]. split.
    + f_equal. exact Hn.
    + intros Hret. f_equal. now apply Hall.
  - left. exists e. split; reflexivity.
Qed.


(** Past the logger guard, a run that raises does so through its last
    call. *)
Lemma get_and_log_raises_through (self : DeviceStatsMonitor)
    (trainer : Trainer V) (key : string) (h : list (Event V)) (e : Exception) :
  loggers trainer <> [] ->
  outcome (Raising._get_and_log_device_stats get_cpu_process_metrics raises
             self trainer key h) = Raised e ->
  exists t ev,
    trace (Raising._get_and_log_device_stats get_cpu_process_metrics raises
             self trainer key h) = t ++ [ev]
    /\ raises (h ++ t) ev = Some e.
Proof.
  intros Hl. unfold Raising._get_and_log_device_stats.
  rewrite (truthy_list_nonempty _ Hl). simpl.
  destruct (negb (should_update_logs (_logger_connector trainer)));
    [discriminate|].
  apply bind_raises_through; [apply sample_raises_through|].
  intros d. apply for_each_raises_through. intros lg.
  apply invoke_raises_through.
Qed.

Lemma process_queries_firstn_log (f : Logger -> dict V) (step : Z)
    (l : list Logger) (n : nat) :
  process_queries
    (firstn n (map (fun logger => LogMetrics logger (f logger) step) l)) = [].
Proof. apply filter_firstn_none, process_queries_log. Qed.


End Facts.

End RaisingFacts.

(** ** The properties of the specification *)

Import PyDict PyDictFacts MonitorFacts RaisingFacts.

Ltac solve_wf :=
  unfold wf; simpl;
  repeat (constructor; [simpl; intuition discriminate|]); constructor.

(** C1. With no logger, [setup] and both sampling hooks raise
    [MisconfigurationException], and their traces are empty: no
    [log_metrics] call (and no query) is made. *)
Theorem no_logger_raises {V : Type} (get_cpu_process_metrics : unit -> dict V)
    (self : DeviceStatsMonitor) (trainer : Trainer V) :
  loggers trainer = [] ->
  (exists message,
     setup self trainer = Run [] (Raised (MisconfigurationException message)))
  /\ (exists message,
        on_train_batch_start get_cpu_process_metrics self trainer
        = Run [] (Raised (MisconfigurationException message)))
  /\ (exists message,
        on_train_batch_end get_cpu_process_metrics self trainer
        = Run [] (Raised (MisconfigurationException message)))
  /\ sink_calls (trace (setup self trainer)) = []
  /\ sink_calls
       (trace (on_train_batch_start get_cpu_process_metrics self trainer)) = []
  /\ sink_calls
       (trace (on_train_batch_end get_cpu_process_metrics self trainer)) = [].
Proof.
  intros Hl.
  unfold on_train_batch_start, on_train_batch_end.
  rewrite !(no_logger_call _ _ _ _ Hl).
  unfold setup. rewrite Hl. simpl.
  repeat apply conj; try reflexivity; eexists; reflexivity.
Qed.

Lemma no_logger_raises_witness :
  loggers (Examples.host [] true Examples.cuda0 Examples.gpu_stats 7) = []
  /\ (exists message,
        on_train_batch_start Examples.process_stats (__init__ None)
          (Examples.host [] true Examples.cuda0 Examples.gpu_stats 7)
        = Run [] (Raised (MisconfigurationException message))).
Proof.
  split; [reflexivity|].
  apply (no_logger_raises Examples.process_stats (__init__ None)
           (Examples.host [] true Examples.cuda0 Examples.gpu_stats 7)).
  reflexivity.
Defined.

(** C2. [_prefix_metric_keys] rewrites every key [k] of the snapshot to
    [label + separator + k] and keeps the value and the order of the
    items; snapshot [{"a": v}], label ["L"], separator ["/"] give exactly
    [{"L/a": v}]; equal inputs give equal mappings. *)
Theorem prefix_metric_keys_rewrites {V : Type}
    (snapshot : dict V) (label separator : string) :
  wf snapshot ->
  _prefix_metric_keys snapshot label separator
  = map (fun kv => (label +:+ separator +:+ fst kv, snd kv)) snapshot
  /\ (forall k, get (label +:+ separator +:+ k)
                    (_prefix_metric_keys snapshot label separator)
                = get k snapshot)
  /\ (forall v : V, _prefix_metric_keys [("a", v)] "L" "/" = [("L/a", v)])
  /\ (forall snapshot' label' separator',
        snapshot' = snapshot -> label' = label -> separator' = separator ->
        _prefix_metric_keys snapshot' label' separator'
        = _prefix_metric_keys snapshot label separator).
Proof.
  intros Hwf. repeat split.
  - now apply prefix_metric_keys_map.
  - intros k. rewrite prefix_metric_keys_map by assumption.
    apply (get_map_rekey (label +:+ separator)).
  - intros; now subst.
Qed.

Lemma prefix_metric_keys_rewrites_witness :
  wf Examples.gpu_stats
  /\ _prefix_metric_keys Examples.gpu_stats "L" "/"
     = [("L/a", 1%Q); ("L/gpu", 2%Q)].
Proof.
  assert (Hwf : wf Examples.gpu_stats) by solve_wf.
  split; [exact Hwf|].
  exact (proj1 (prefix_metric_keys_rewrites Examples.gpu_stats "L" "/" Hwf)).
Defined.




(** C4, as stated, fails when no logger is configured: the check for
    loggers comes before the emit predicate, so the skipped call raises. *)
Lemma skipped_call_raises_without_logger :
  let trainer := Examples.host [] false Examples.cuda0 Examples.gpu_stats 7 in
  should_update_logs (_logger_connector trainer) = false
  /\ on_train_batch_end Examples.process_stats (__init__ None) trainer
     = Run [] (Raised (MisconfigurationException
         "Cannot use `DeviceStatsMonitor` callback with `Trainer(logger=False)`.")).
Proof. split; reflexivity. Qed.

(** C4, amended. With at least one logger configured, a sampling call
    whose [should_update_logs] is false makes no call at all (no device
    query, no process query, no [log_metrics]) and returns without
    error. *)
Theorem skipped_call_is_silent {V : Type}
    (get_cpu_process_metrics : unit -> dict V)
    (self : DeviceStatsMonitor) (trainer : Trainer V) (key : string) :
  loggers trainer <> [] ->
  should_update_logs (_logger_connector trainer) = false ->
  let run := _get_and_log_device_stats get_cpu_process_metrics self trainer key in
  run = Run [] (Returned tt)
  /\ device_queries (trace run) = []
  /\ process_queries (trace run) = []
  /\ sink_calls (trace run) = []
  /\ on_train_batch_start get_cpu_process_metrics self trainer
     = Run [] (Returned tt)
  /\ on_train_batch_end get_cpu_process_metrics self trainer
     = Run [] (Returned tt).
Proof.
  intros Hl Hs run. unfold run, on_train_batch_start, on_train_batch_end.
  rewrite !(skipped_call _ _ _ _ Hl Hs). repeat split.
Qed.

Lemma skipped_call_is_silent_witness :
  let trainer :=
    Examples.host [Examples.sink1; Examples.sink2] false Examples.cuda0
      Examples.gpu_stats 7 in
  (loggers trainer <> []
   /\ should_update_logs (_logger_connector trainer) = false)
  /\ on_train_batch_start Examples.process_stats (__init__ (Some true)) trainer
     = Run [] (Returned tt).
Proof.
  intros trainer.
  assert (H1 : loggers trainer <> []) by discriminate.
  assert (H2 : should_update_logs (_logger_connector trainer) = false)
    by reflexivity.
  split; [split; assumption|].
  apply (skipped_call_is_silent Examples.process_stats (__init__ (Some true))
           trainer "" H1 H2).
Defined.



(** C6. The process-metrics provider is never queried by a sampling call
    (any label, so either hook; raising, skipped or emitting) when
    [cpu_stats] is [False], whatever the device, nor when [cpu_stats] is
    [True] and the device is the CPU. *)
Theorem process_metrics_not_queried {V : Type}
    (get_cpu_process_metrics : unit -> dict V)
    (self : DeviceStatsMonitor) (trainer : Trainer V) (key : string) :
  cpu_stats self = Some false
  \/ (cpu_stats self = Some true
      /\ type (root_device (strategy trainer)) = "cpu") ->
  process_queries
    (trace (_get_and_log_device_stats get_cpu_process_metrics self trainer key))
  = [].
Proof.
  intros H.
  destruct (loggers trainer) as [|lg l] eqn:Hl.
  { now rewrite no_logger_call. }
  assert (Hne : loggers trainer <> []) by (rewrite Hl; discriminate).
  destruct (should_update_logs (_logger_connector trainer)) eqn:Hs.
  2: { now rewrite skipped_call. }
  assert (Hsample : exists t d,
    sample_device_stats get_cpu_process_metrics self trainer
    = Run t (Returned d) /\ process_queries t = []).
  { rewrite sample_cases.
    destruct H as [->|[-> ->]]; simpl; do 2 eexists; split; reflexivity. }
  destruct Hsample as (t & d & Hsample & Ht).
  rewrite (emitting_call _ _ _ key _ _ Hne Hs Hsample). simpl.
  assert (Happ : forall t1 t2 : list (Event V),
            process_queries (t1 ++ t2) = process_queries t1 ++ process_queries t2)
    by (intros; apply filter_app).
  rewrite Happ, Ht. apply process_queries_log.
Qed.

Lemma process_metrics_not_queried_witness :
  let trainer :=
    Examples.host [Examples.sink1] true Examples.cpu Examples.gpu_stats 7 in
  (cpu_stats (__init__ (Some true)) = Some false
   \/ (cpu_stats (__init__ (Some true)) = Some true
       /\ type (root_device (strategy trainer)) = "cpu"))
  /\ process_queries
       (trace (_get_and_log_device_stats Examples.process_stats
                 (__init__ (Some true)) trainer "on_train_batch_end"))
     = [].
Proof.
  intros trainer.
  assert (H : cpu_stats (__init__ (Some true)) = Some false
              \/ (cpu_stats (__init__ (Some true)) = Some true
                  /\ type (root_device (strategy trainer)) = "cpu"))
    by (right; split; reflexivity).
  split; [exact H|].
  exact (process_metrics_not_queried Examples.process_stats
           (__init__ (Some true)) trainer "on_train_batch_end" H).
Defined.

(** C7, as stated, fails on a call that does not emit: with [cpu_stats]
    unset and [should_update_logs] false the device is not queried. *)
Lemma device_query_once_fails_when_skipped :
  let self := __init__ None in
  let trainer :=
    Examples.host [Examples.sink1] false Examples.cuda0 Examples.gpu_stats 7 in
  let run := on_train_batch_end Examples.process_stats self trainer in
  cpu_stats self = None
  /\ run = Run [] (Returned tt)
  /\ length (device_queries (trace run)) <> 1.
Proof. cbv. repeat split; discriminate. Qed.

(** C7, amended. With [cpu_stats] unset or [True], a sampling call that
    emits (a logger is configured and [should_update_logs] holds) calls
    [get_device_stats] on the root device exactly once. *)
Theorem device_queried_once {V : Type}
    (get_cpu_process_metrics : unit -> dict V)
    (self : DeviceStatsMonitor) (trainer : Trainer V) (key : string) :
  loggers trainer <> [] ->
  should_update_logs (_logger_connector trainer) = true ->
  cpu_stats self = None \/ cpu_stats self = Some true ->
  let run := _get_and_log_device_stats get_cpu_process_metrics self trainer key in
  device_queries (trace run) = [GetDeviceStats (root_device (strategy trainer))]
  /\ length (device_queries (trace run)) = 1.
Proof.
  intros Hl Hs Hc run.
  assert (Hsample : exists t d,
    sample_device_stats get_cpu_process_metrics self trainer
    = Run t (Returned d)
    /\ device_queries t = [GetDeviceStats (root_device (strategy trainer))]).
  { rewrite sample_cases.
    destruct Hc as [->| ->]; simpl.
    - do 2 eexists; split; reflexivity.
    - destruct (String.eqb _ _); do 2 eexists; split; reflexivity. }
  destruct Hsample as (t & d & Hsample & Ht).
  unfold run. rewrite (emitting_call _ _ _ key _ _ Hl Hs Hsample). simpl.
  assert (Happ : forall t1 t2 : list (Event V),
            device_queries (t1 ++ t2) = device_queries t1 ++ device_queries t2)
    by (intros; apply filter_app).
  rewrite Happ, Ht, device_queries_log. split; reflexivity.
Qed.

Lemma device_queried_once_witness :
  let trainer :=
    Examples.host [Examples.sink1] true Examples.cuda0 Examples.gpu_stats 7 in
  (loggers trainer <> []
   /\ should_update_logs (_logger_connector trainer) = true
   /\ (cpu_stats (__init__ None) = None
       \/ cpu_stats (__init__ None) = Some true))
  /\ device_queries
       (trace (_get_and_log_device_stats Examples.process_stats
                 (__init__ None) trainer "on_train_batch_start"))
     = [GetDeviceStats Examples.cuda0].
Proof.
  intros trainer.
  assert (H1 : loggers trainer <> []) by discriminate.
  assert (H2 : should_update_logs (_logger_connector trainer) = true)
    by reflexivity.
  assert (H3 : cpu_stats (__init__ None) = None
               \/ cpu_stats (__init__ None) = Some true)
    by (left; reflexivity).
  split; [repeat apply conj; assumption|].
  exact (proj1 (device_queried_once Examples.process_stats (__init__ None)
                  trainer "on_train_batch_start" H1 H2 H3)).
Defined.

(** C8. The deprecated [prefix_metric_keys(metrics, prefix)] makes one
    call, the deprecation notice, and returns the mapping whose keys are
    [prefix + key], values and order unchanged; [{"x": v}] with prefix
    ["p"] gives exactly [{"px": v}]. *)
Theorem deprecated_prefix_metric_keys {V : Type}
    (metrics : dict V) (prefix : string) :
  wf metrics ->
  let notice : Event V :=
    RankZeroDeprecation
      "`pytorch_lightning.callbacks.device_stats_monitor.prefix_metrics` is deprecated in v1.6 and will be removed in v1.8." in
  prefix_metric_keys metrics prefix
  = Run [notice]
        (Returned (map (fun kv => (prefix +:+ fst kv, snd kv)) metrics))
  /\ length (deprecations (trace (prefix_metric_keys metrics prefix))) = 1
  /\ (forall v : V,
        prefix_metric_keys [("x", v)] "p" = Run [notice] (Returned [("px", v)])).
Proof.
  intros Hwf notice.
  assert (Hrun : prefix_metric_keys metrics prefix
                 = Run [notice]
                     (Returned (map (fun kv => (prefix +:+ fst kv, snd kv))
                                    metrics))).
  { unfold prefix_metric_keys, rank_zero_deprecation, call, bind. simpl.
    rewrite prefix_metric_keys_map by assumption.
    unfold notice. do 2 f_equal.
    apply map_ext. intros [k v]. simpl. now rewrite Str.append_empty_r. }
  rewrite Hrun. repeat apply conj; reflexivity.
Qed.

Lemma deprecated_prefix_metric_keys_witness :
  wf [("x", 2%Q)]
  /\ outcome (prefix_metric_keys [("x", 2%Q)] "p") = Returned [("px", 2%Q)].
Proof.
  assert (Hwf : wf [("x", 2%Q)]) by solve_wf.
  split; [exact Hwf|].
  rewrite (proj1 (deprecated_prefix_metric_keys [("x", 2%Q)] "p" Hwf)).
  reflexivity.
Defined.

(** C9, as stated, fails where the device's own metric names nest the
    label: with device metrics [{"a": 1, "on_train_batch_start/a": 1}]
    the mapping forwarded by [on_train_batch_start] holds both
    ["on_train_batch_start/a"] and that key under the prefix again, two
    entries that differ only by the prefix and separator. *)
Lemma forwarded_mapping_can_nest_prefix :
  let trainer :=
    Examples.host [Examples.sink1] true Examples.cuda0 Examples.nested_stats 7 in
  let forwarded : dict Q :=
    [("on_train_batch_start/a", 1%Q);
     ("on_train_batch_start/on_train_batch_start/a", 1%Q)] in
  wf Examples.nested_stats
  /\ on_train_batch_start Examples.process_stats (__init__ None) trainer
     = Run [GetDeviceStats Examples.cuda0; LogMetrics Examples.sink1 forwarded 7]
           (Returned tt)
  /\ In "on_train_batch_start/a" (keys forwarded)
  /\ In ("on_train_batch_start" +:+ "/" +:+ "on_train_batch_start/a")
        (keys forwarded)
  /\ get ("on_train_batch_start" +:+ "/" +:+ "on_train_batch_start/a") forwarded
     = get "on_train_batch_start/a" forwarded.
Proof.
  intros trainer forwarded.
  split; [solve_wf|].
  split; [reflexivity|].
  split; [left; reflexivity|].
  split; [right; left; reflexivity | reflexivity].
Qed.

(** C9, amended. In a sampling call that emits, the snapshot is the merge
    of the query results as they were returned (nothing for
    [cpu_stats=False]; the device result; or the device result updated
    with the process result), and only then is it prefixed: the loggers
    are called once each, in order, all from that one unprefixed
    snapshot; the mapping a logger receives is the snapshot with
    [key + separator] put once in front of every key, values and order
    unchanged, so its keys are distinct; and it holds a key together with
    the same key under the prefix only if the snapshot itself holds such
    a pair. *)
Theorem prefix_applied_once {V : Type}
    (get_cpu_process_metrics : unit -> dict V)
    (self : DeviceStatsMonitor) (trainer : Trainer V) (key : string) :
  loggers trainer <> [] ->
  should_update_logs (_logger_connector trainer) = true ->
  wf (get_device_stats (accelerator trainer) (root_device (strategy trainer))) ->
  let run := _get_and_log_device_stats get_cpu_process_metrics self trainer key in
  let device := root_device (strategy trainer) in
  let device_result := get_device_stats (accelerator trainer) device in
  let process_result := get_cpu_process_metrics tt in
  let merged : dict V :=
    match cpu_stats self with
    | Some false => empty
    | None => device_result
    | Some true =>
        if String.eqb (type device) "cpu" then device_result
        else update device_result process_result
    end in
  exists snapshot : dict V,
    outcome (sample_device_stats get_cpu_process_metrics self trainer)
    = Returned snapshot
    /\ snapshot = merged
    /\ sink_calls (trace run)
       = map (fun logger =>
                LogMetrics logger
                  (_prefix_metric_keys snapshot key (group_separator logger))
                  (global_step trainer))
             (loggers trainer)
    /\ forall logger, In logger (loggers trainer) ->
       let separator := group_separator logger in
       let forwarded := _prefix_metric_keys snapshot key separator in
       forwarded
       = map (fun kv => (key +:+ separator +:+ fst kv, snd kv)) merged
       /\ wf forwarded
       /\ ((exists k, In k (keys forwarded)
                      /\ In (key +:+ separator +:+ k) (keys forwarded))
           <-> (exists k, In k (keys snapshot)
                          /\ In (key +:+ separator +:+ k) (keys snapshot))).
Proof.
  intros Hl Hs Hwf run device device_result process_result merged.
  assert (Hsample : exists t,
    sample_device_stats get_cpu_process_metrics self trainer
    = Run t (Returned merged)).
  { rewrite sample_cases. unfold merged, device_result, device.
    destruct (cpu_stats self) as [[|]|]; eauto.
    destruct (String.eqb _ _); eauto. }
  destruct Hsample as (t & Hsample).
  assert (Hwd : wf merged).
  { apply (sample_wf get_cpu_process_metrics self trainer merged Hwf).
    now rewrite Hsample. }
  assert (Ht : sink_calls t = []).
  { pose proof (sample_no_sink_call get_cpu_process_metrics self trainer) as H.
    now rewrite Hsample in H. }
  exists merged. split; [now rewrite Hsample|]. split; [reflexivity|]. split.
  - unfold run.
    rewrite (emitting_call get_cpu_process_metrics self trainer key _ _
               Hl Hs Hsample).
    simpl. now rewrite sink_calls_app, Ht, sink_calls_log.
  - intros logger _ separator forwarded.
    assert (Hmap : forwarded
                   = map (fun kv => (key +:+ separator +:+ fst kv, snd kv))
                         merged)
      by now apply prefix_metric_keys_map.
    split; [exact Hmap|]. rewrite Hmap. split.
    + apply (wf_map_rekey (fun k => key +:+ separator +:+ k)); [|exact Hwd].
      intros a b. apply prefix_inj.
    + apply (nested_keys_map_rekey (key +:+ separator)).
Qed.

Lemma prefix_applied_once_witness :
  let trainer :=
    Examples.host [Examples.sink1; Examples.sink2] true Examples.cuda0
      Examples.gpu_stats 7 in
  (loggers trainer <> []
   /\ should_update_logs (_logger_connector trainer) = true
   /\ wf (get_device_stats (accelerator trainer)
            (root_device (strategy trainer))))
  /\ exists snapshot : dict Q,
       outcome (sample_device_stats Examples.process_stats
                  (__init__ (Some true)) trainer)
       = Returned snapshot
       /\ snapshot = [("a", 3%Q); ("gpu", 2%Q); ("cpu_percent", 50%Q)]
       /\ sink_calls
            (trace (_get_and_log_device_stats Examples.process_stats
                      (__init__ (Some true)) trainer "L"))
          = map (fun logger =>
                   LogMetrics logger
                     (_prefix_metric_keys snapshot "L" (group_separator logger))
                     (global_step trainer))
                (loggers trainer).
Proof.
  intros trainer.
  assert (H1 : loggers trainer <> []) by discriminate.
  assert (H2 : should_update_logs (_logger_connector trainer) = true)
    by reflexivity.
  assert (H3 : wf (get_device_stats (accelerator trainer)
                     (root_device (strategy trainer)))) by solve_wf.
  split; [repeat apply conj; assumption|].
  destruct (prefix_applied_once Examples.process_stats (__init__ (Some true))
              trainer "L" H1 H2 H3) as (snapshot & Hsnap & Hmerged & Hcalls & _).
  exists snapshot. repeat split; assumption.
Defined.



(** ** Further properties of the module *)

(** X1. [setup] and the sampling call share one guard, also when
    collaborators may raise: [setup] raises its
    [MisconfigurationException] exactly when the sampling call raises its
    own before any call; and once [setup] has returned, a sampling call
    on that host raises only the exception its last collaborator call
    raised. *)
Theorem setup_guards_sampling {V : Type}
    (get_cpu_process_metrics : unit -> dict V)
    (raises : list (Event V) -> Event V -> option Exception)
    (self : DeviceStatsMonitor) (trainer : Trainer V) (key : string)
    (history : list (Event V)) :
  let run := Raising._get_and_log_device_stats get_cpu_process_metrics raises
               self trainer key history in
  ((exists message,
      setup self trainer = Run [] (Raised (MisconfigurationException message)))
   <-> run = Run [] (Raised (MisconfigurationException
         "Cannot use `DeviceStatsMonitor` callback with `Trainer(logger=False)`.")))
  /\ (outcome (setup self trainer) = Returned tt ->
      forall e, outcome run = Raised e ->
      exists t ev,
        trace run = t ++ [ev] /\ raises (history ++ t) ev = Some e).
Proof.
  intros run. unfold run. split.
  - split.
    + intros (m & Hsetup). unfold setup in Hsetup.
      unfold Raising._get_and_log_device_stats.
      destruct (loggers trainer) as [|lg l]; [reflexivity | discriminate Hsetup].
    + intros Hrun. destruct (loggers trainer) as [|lg l] eqn:Hl.
      * unfold setup. rewrite Hl. simpl. eexists. reflexivity.
      * exfalso.
        assert (Hne : loggers trainer <> []) by (rewrite Hl; discriminate).
        destruct (get_and_log_raises_through get_cpu_process_metrics raises
                    self trainer key history _ Hne (f_equal outcome Hrun))
          as (t & ev & Ht & _).
        rewrite Hrun in Ht. simpl in Ht. destruct t; discriminate Ht.
  - intros Hsetup e He.
    apply get_and_log_raises_through; [|exact He].
    unfold setup in Hsetup.
    destruct (loggers trainer); [discriminate Hsetup | discriminate].
Qed.

(** X2. Exceptions of collaborators propagate unchanged and end the
    sampling call. Every call a sampling call makes returned, except that
    its last call may have raised, and then that exception is the outcome
    of the sampling call. A sampling call that raises either has no
    logger, made no call and raises [MisconfigurationException], or has
    loggers and raises what its last call raised. *)
Theorem collaborator_errors_propagate {V : Type}
    (get_cpu_process_metrics : unit -> dict V)
    (raises : list (Event V) -> Event V -> option Exception)
    (self : DeviceStatsMonitor) (trainer : Trainer V) (key : string)
    (history : list (Event V)) :
  let run := Raising._get_and_log_device_stats get_cpu_process_metrics raises
               self trainer key history in
  (forall t ev rest,
     trace run = t ++ ev :: rest ->
     raises (history ++ t) ev = None
     \/ (rest = []
         /\ exists e, raises (history ++ t) ev = Some e
                      /\ outcome run = Raised e))
  /\ (forall e,
        outcome run = Raised e ->
        (loggers trainer = []
         /\ trace run = []
         /\ e = MisconfigurationException
                  "Cannot use `DeviceStatsMonitor` callback with `Trainer(logger=False)`.")
        \/ (loggers trainer <> []
            /\ exists t ev,
                 trace run = t ++ [ev] /\ raises (history ++ t) ev = Some e)).
Proof.
  intros run. unfold run. split.
  - intros t ev rest H.
    exact (get_and_log_calls_return get_cpu_process_metrics raises self
             trainer key history t ev rest H).
  - intros e He. destruct (loggers trainer) as [|lg l] eqn:Hl.
    + left. unfold Raising._get_and_log_device_stats in *.
      rewrite Hl in *. simpl in *. injection He as <-. repeat split.
    + right. split; [discriminate|].
      apply get_and_log_raises_through; [rewrite Hl; discriminate | exact He].
Qed.

Lemma collaborator_errors_propagate_witness :
  let trainer :=
    Examples.host [Examples.sink1] true Examples.cuda0 Examples.gpu_stats 7 in
  let run :=
    Raising._get_and_log_device_stats Examples.process_stats
      Examples.device_query_fails (__init__ None) trainer
      "on_train_batch_start" [] in
  run = Run [GetDeviceStats Examples.cuda0]
            (Raised (CollaboratorException "RuntimeError"))
  /\ ((loggers trainer = []
       /\ trace run = []
       /\ CollaboratorException "RuntimeError"
          = MisconfigurationException
              "Cannot use `DeviceStatsMonitor` callback with `Trainer(logger=False)`.")
      \/ (loggers trainer <> []
          /\ exists t ev,
               trace run = t ++ [ev]
               /\ Examples.device_query_fails ([] ++ t) ev
                  = Some (CollaboratorException "RuntimeError"))).
Proof.
  intros trainer run.
  assert (Hrun : run = Run [GetDeviceStats Examples.cuda0]
                           (Raised (CollaboratorException "RuntimeError")))
    by reflexivity.
  split; [exact Hrun|].
  exact (proj2 (collaborator_errors_propagate Examples.process_stats
                  Examples.device_query_fails (__init__ None) trainer
                  "on_train_batch_start" [])
           (CollaboratorException "RuntimeError") (f_equal outcome Hrun)).
Defined.

(** X3. A sampling call queries the process-metrics provider at most
    once, and it does so exactly when a logger is configured,
    [should_update_logs] holds, [cpu_stats] is [True], the device is not
    the CPU and the device query returned; with [cpu_stats] unset it
    never does. Collaborators may raise. *)
Theorem process_query_exactly_when {V : Type}
    (get_cpu_process_metrics : unit -> dict V)
    (raises : list (Event V) -> Event V -> option Exception)
    (self : DeviceStatsMonitor) (trainer : Trainer V) (key : string)
    (history : list (Event V)) :
  let run := Raising._get_and_log_device_stats get_cpu_process_metrics raises
               self trainer key history in
  let device := root_device (strategy trainer) in
  (process_queries (trace run) = [GetCpuProcessMetrics]
   <-> loggers trainer <> []
       /\ should_update_logs (_logger_connector trainer) = true
       /\ cpu_stats self = Some true
       /\ type device <> "cpu"
       /\ raises history (GetDeviceStats device) = None)
  /\ (process_queries (trace run) = []
      \/ process_queries (trace run) = [GetCpuProcessMetrics]).
Proof.
  intros run device. unfold run, device.
  pose proof (run_cases_ get_cpu_process_metrics raises self trainer key history)
    as Hcases.
  cbv zeta in Hcases.
  destruct Hcases as [(Hl & ->) | [(Hl & Hs & ->) | (Hl & Hs & Hc)]].
  - simpl. split; [|now left]. split; [discriminate | tauto].
  - simpl. split; [|now left]. split; [discriminate|].
    rewrite Hs. intros (_ & H & _). discriminate H.
  - assert (Hq :
      process_queries
        (trace (Raising._get_and_log_device_stats get_cpu_process_metrics
                  raises self trainer key history))
      = process_queries
          (trace (Raising.sample_device_stats get_cpu_process_metrics raises
                    self trainer history))).
    { destruct Hc as [(e & _ & ->) | (d & n & _ & -> & _)]; [reflexivity|].
      now rewrite process_queries_app, process_queries_firstn_log, app_nil_r. }
    rewrite Hq, sample_cases_. clear Hq Hc.
    destruct (cpu_stats self) as [[|]|].
    + destruct (raises history (GetDeviceStats (root_device (strategy trainer))))
        as [e|] eqn:Hd.
      { simpl. split; [|now left]. split; [discriminate|].
        intros (_ & _ & _ & _ & H). discriminate H. }
      destruct (String.eqb_spec (type (root_device (strategy trainer))) "cpu")
        as [Ht|Ht].
      { simpl. split; [|now left]. split; [discriminate | tauto]. }
      destruct (raises _ GetCpuProcessMetrics); simpl;
        (split; [|now right]); (split; [|reflexivity]);
        intros _; repeat split; assumption.
    + simpl. split; [|now left]. split; [discriminate|].
      intros (_ & _ & H & _). discriminate H.
    + destruct (raises history _); simpl;
        (split; [|now left]); (split; [discriminate|]);
        intros (_ & _ & H & _); discriminate H.
Qed.

(** X4. A sampling call calls [get_device_stats] at most once, always on
    the strategy's root device, and it does so exactly when a logger is
    configured, [should_update_logs] holds and [cpu_stats] is not
    [False]. *)
Theorem device_query_exactly_when {V : Type}
    (get_cpu_process_metrics : unit -> dict V)
    (self : DeviceStatsMonitor) (trainer : Trainer V) (key : string) :
  let run := _get_and_log_device_stats get_cpu_process_metrics self trainer key in
  let query : Event V := GetDeviceStats (root_device (strategy trainer)) in
  (device_queries (trace run) = [query]
   <-> loggers trainer <> []
       /\ should_update_logs (_logger_connector trainer) = true
       /\ cpu_stats self <> Some false)
  /\ (device_queries (trace run) = [] \/ device_queries (trace run) = [query]).
Proof.
  intros run query. unfold run, query.
  destruct (call_cases get_cpu_process_metrics self trainer key)
    as [(Hl & ->) | [(Hl & Hs & ->) | (Hl & Hs & t & d & Hsample & ->)]];
    simpl.
  - split; [|now left]. split; [discriminate | tauto].
  - split; [|now left]. split; [discriminate|].
    rewrite Hs. intros (_ & H & _). discriminate H.
  - rewrite device_queries_app, device_queries_log, app_nil_r.
    rewrite sample_cases in Hsample.
    destruct (cpu_stats self) as [[|]|].
    + destruct (String.eqb (type (root_device (strategy trainer))) "cpu");
        injection Hsample as <- _; simpl;
        (split; [|now right]); (split; [|reflexivity]);
        intros _; repeat split; try assumption; discriminate.
    + injection Hsample as <- _. simpl.
      split; [|now left]. split; [discriminate|].
      intros (_ & _ & H). now contradiction H.
    + injection Hsample as <- _. simpl.
      split; [|now right]. split; [|reflexivity].
      intros _; repeat split; try assumption; discriminate.
Qed.

(** X5. The calls of a sampling call come in a fixed order: the device
    query (if any), then the process query (if any), then the
    [log_metrics] calls, and nothing else; in particular a sampling call
    never gives a deprecation notice. *)
Theorem effects_in_order {V : Type}
    (get_cpu_process_metrics : unit -> dict V)
    (self : DeviceStatsMonitor) (trainer : Trainer V) (key : string) :
  let run := _get_and_log_device_stats get_cpu_process_metrics self trainer key in
  trace run
  = device_queries (trace run) ++ process_queries (trace run)
    ++ sink_calls (trace run)
  /\ deprecations (trace run) = [].
Proof.
  intros run. unfold run.
  destruct (call_cases get_cpu_process_metrics self trainer key)
    as [(Hl & ->) | [(Hl & Hs & ->) | (Hl & Hs & t & d & Hsample & ->)]];
    simpl; try (split; reflexivity).
  rewrite device_queries_app, process_queries_app, sink_calls_app,
          deprecations_app.
  rewrite device_queries_log, process_queries_log, sink_calls_log,
          deprecations_log, !app_nil_r.
  rewrite sample_cases in Hsample.
  destruct (cpu_stats self) as [[|]|];
    [destruct (String.eqb (type (root_device (strategy trainer))) "cpu")| |];
    injection Hsample as <- _; split; reflexivity.
Qed.



(** X7. The merge loses no metric. With [cpu_stats=True] on a device that
    is not the CPU, the mapping an emitting call hands to a logger
    answers a prefixed key [key + separator + k] with the process value
    of [k] if the process result has [k], else with the device value of
    [k], else not at all; its keys are the device's keys in the device's
    order, followed by the process keys the device lacks in the process
    result's order, each under the prefix. *)
Theorem merged_metrics_lookup {V : Type}
    (get_cpu_process_metrics : unit -> dict V)
    (self : DeviceStatsMonitor) (trainer : Trainer V) (key : string) :
  let device := root_device (strategy trainer) in
  let device_result := get_device_stats (accelerator trainer) device in
  let process_result := get_cpu_process_metrics tt in
  let run := _get_and_log_device_stats get_cpu_process_metrics self trainer key in
  loggers trainer <> [] ->
  should_update_logs (_logger_connector trainer) = true ->
  cpu_stats self = Some true ->
  type device <> "cpu" ->
  wf device_result ->
  wf process_result ->
  forall logger metrics step,
    In (LogMetrics logger metrics step) (trace run) ->
    (forall k,
       get (key +:+ group_separator logger +:+ k) metrics
       = match get k process_result with
         | Some v => Some v
         | None => get k device_result
         end)
    /\ keys metrics
       = map (fun k => key +:+ group_separator logger +:+ k)
           (keys device_result
            ++ filter (fun k => negb (existsb (String.eqb k)
                                        (keys device_result)))
                 (keys process_result)).
Proof.
  intros device device_result process_result run Hl Hs Hc Ht Hwd Hwp.
  assert (Hsample :
    sample_device_stats get_cpu_process_metrics self trainer
    = Run [GetDeviceStats device; GetCpuProcessMetrics]
          (Returned (update device_result process_result))).
  { rewrite sample_cases, Hc.
    apply String.eqb_neq in Ht. fold device. now rewrite Ht. }
  unfold run.
  rewrite (emitting_call get_cpu_process_metrics self trainer key _ _
             Hl Hs Hsample).
  simpl.
  intros logger metrics step [Hin|[Hin|Hin]]; try discriminate Hin.
  apply in_map_iff in Hin. destruct Hin as (lg & Heq & _).
  injection Heq as -> <- _.
  rewrite prefix_metric_keys_map by now apply wf_update.
  split.
  - intros k. rewrite (get_map_rekey (key +:+ group_separator logger)).
    now apply get_update.
  - rewrite (keys_map_rekey (fun k => key +:+ group_separator logger +:+ k)).
    now rewrite keys_update.
Qed.

Lemma merged_metrics_lookup_witness :
  let self := __init__ (Some true) in
  let trainer :=
    Examples.host [Examples.sink2] true Examples.cuda0 Examples.gpu_stats 7 in
  let metrics : dict Q :=
    [("L.a", 3%Q); ("L.gpu", 2%Q); ("L.cpu_percent", 50%Q)] in
  (loggers trainer <> []
   /\ should_update_logs (_logger_connector trainer) = true
   /\ cpu_stats self = Some true
   /\ type (root_device (strategy trainer)) <> "cpu"
   /\ wf Examples.gpu_stats
   /\ wf (Examples.process_stats tt)
   /\ In (LogMetrics Examples.sink2 metrics 7%Z)
         (trace (_get_and_log_device_stats Examples.process_stats self
                   trainer "L")))
  /\ get ("L" +:+ "." +:+ "gpu") metrics = Some 2%Q
  /\ get ("L" +:+ "." +:+ "a") metrics = Some 3%Q.
Proof.
  intros self trainer metrics.
  assert (H1 : loggers trainer <> []) by discriminate.
  assert (H2 : should_update_logs (_logger_connector trainer) = true)
    by reflexivity.
  assert (H3 : cpu_stats self = Some true) by reflexivity.
  assert (H4 : type (root_device (strategy trainer)) <> "cpu") by discriminate.
  assert (H5 : wf Examples.gpu_stats) by solve_wf.
  assert (H6 : wf (Examples.process_stats tt)) by solve_wf.
  assert (H7 : In (LogMetrics Examples.sink2 metrics 7%Z)
                 (trace (_get_and_log_device_stats Examples.process_stats self
                           trainer "L")))
    by (right; right; left; reflexivity).
  split; [repeat apply conj; assumption|].
  pose proof (proj1 (merged_metrics_lookup Examples.process_stats self trainer
                       "L" H1 H2 H3 H4 H5 H6 Examples.sink2 metrics 7%Z H7))
    as Hget.
  split; [exact (Hget "gpu") | exact (Hget "a")].
Defined.

(** X8. The keys of a prefixed mapping are exactly the keys of the input
    under the prefix: every input key [k] appears as
    [prefix + separator + k], and no other key appears. *)
Theorem prefixed_keys_exactly {V : Type}
    (metrics_dict : dict V) (prefix separator k' : string) :
  In k' (keys (_prefix_metric_keys metrics_dict prefix separator))
  <-> exists k, In k (keys metrics_dict) /\ k' = prefix +:+ separator +:+ k.
Proof.
  unfold _prefix_metric_keys.
  apply (keys_rekey_iff (fun k => prefix +:+ separator +:+ k)).
Qed.

(** X9. Prefixing composes: prefixing a prefixed mapping again is one
    prefixing of the original with the concatenated prefix
    [prefix2 + separator2 + prefix1] and the inner separator. *)
Theorem prefixing_composes {V : Type} (metrics_dict : dict V)
    (prefix1 separator1 prefix2 separator2 : string) :
  wf metrics_dict ->
  _prefix_metric_keys (_prefix_metric_keys metrics_dict prefix1 separator1)
    prefix2 separator2
  = _prefix_metric_keys metrics_dict (prefix2 +:+ separator2 +:+ prefix1)
      separator1.
Proof.
  intros Hwf.
  rewrite (prefix_metric_keys_map metrics_dict prefix1 separator1 Hwf).
  rewrite (prefix_metric_keys_map metrics_dict _ separator1 Hwf).
  rewrite prefix_metric_keys_map.
  - rewrite map_map. apply map_ext. intros [k v]. simpl.
    now rewrite !Str.append_assoc.
  - apply (wf_map_rekey (fun k => prefix1 +:+ separator1 +:+ k));
      [|exact Hwf].
    intros a b. apply prefix_inj.
Qed.

Lemma prefixing_composes_witness :
  wf Examples.gpu_stats
  /\ _prefix_metric_keys (_prefix_metric_keys Examples.gpu_stats "gpu0" ".")
       "on_train_batch_end" "/"
     = _prefix_metric_keys Examples.gpu_stats "on_train_batch_end/gpu0" ".".
Proof.
  assert (Hwf : wf Examples.gpu_stats) by solve_wf.
  split; [exact Hwf|].
  exact (prefixing_composes Examples.gpu_stats "gpu0" "." "on_train_batch_end"
           "/" Hwf).
Defined.

(** X10. The deprecated helper is the logger-aware prefixing with the
    separator folded into the prefix: [prefix_metric_keys(d, p + s)]
    makes one call, the deprecation notice, and returns what
    [_prefix_metric_keys(d, p, s)] returns. *)
Theorem deprecated_helper_agrees {V : Type}
    (metrics_dict : dict V) (prefix separator : string) :
  prefix_metric_keys metrics_dict (prefix +:+ separator)
  = Run [RankZeroDeprecation
           "`pytorch_lightning.callbacks.device_stats_monitor.prefix_metrics` is deprecated in v1.6 and will be removed in v1.8."]
        (Returned (_prefix_metric_keys metrics_dict prefix separator)).
Proof.
  unfold prefix_metric_keys, rank_zero_deprecation, call, bind. simpl.
  do 2 f_equal. unfold _prefix_metric_keys.
  apply rekey_ext. intros k. now rewrite Str.append_empty_r.
Qed.

(** X11. Prefixing loses nothing: two mappings with the same prefixed
    image under one prefix and separator are the same mapping. *)
Theorem prefixing_injective {V : Type}
    (d d' : dict V) (prefix separator : string) :
  wf d -> wf d' ->
  _prefix_metric_keys d prefix separator
  = _prefix_metric_keys d' prefix separator ->
  d = d'.
Proof.
  intros Hd Hd'. rewrite !prefix_metric_keys_map by assumption.
  apply (map_rekey_inj (fun k => prefix +:+ separator +:+ k)).
  intros a b. apply prefix_inj.
Qed.

Lemma prefixing_injective_witness :
  (wf Examples.gpu_stats /\ wf [("a", 1%Q); ("gpu", 2%Q)]
   /\ _prefix_metric_keys Examples.gpu_stats "L" "/"
      = _prefix_metric_keys [("a", 1%Q); ("gpu", 2%Q)] "L" "/")
  /\ Examples.gpu_stats = [("a", 1%Q); ("gpu", 2%Q)].
Proof.
  assert (H1 : wf Examples.gpu_stats) by solve_wf.
  assert (H2 : wf [("a", 1%Q); ("gpu", 2%Q)]) by solve_wf.
  assert (H3 : _prefix_metric_keys Examples.gpu_stats "L" "/"
               = _prefix_metric_keys [("a", 1%Q); ("gpu", 2%Q)] "L" "/")
    by reflexivity.
  split; [repeat apply conj; assumption|].
  exact (prefixing_injective Examples.gpu_stats [("a", 1%Q); ("gpu", 2%Q)]
           "L" "/" H1 H2 H3).
Defined.

(** X12. What [on_train_batch_start] logs never collides with what
    [on_train_batch_end] logs: whatever the hosts, snapshots and
    separators, no key of a mapping forwarded by the first hook is a key
    of a mapping forwarded by the second. *)
Theorem hooks_log_disjoint_keys {V : Type}
    (get_cpu_process_metrics1 get_cpu_process_metrics2 : unit -> dict V)
    (self1 self2 : DeviceStatsMonitor) (trainer1 trainer2 : Trainer V)
    (logger1 logger2 : Logger) (metrics1 metrics2 : dict V)
    (step1 step2 : Z) (k : string) :
  In (LogMetrics logger1 metrics1 step1)
     (trace (on_train_batch_start get_cpu_process_metrics1 self1 trainer1)) ->
  In (LogMetrics logger2 metrics2 step2)
     (trace (on_train_batch_end get_cpu_process_metrics2 self2 trainer2)) ->
  In k (keys metrics1) ->
  ~ In k (keys metrics2).
Proof.
  unfold on_train_batch_start, on_train_batch_end.
  intros H1 H2 Hk1 Hk2.
  apply logged_mapping in H1. destruct H1 as (_ & _ & d1 & _ & ->).
  apply logged_mapping in H2. destruct H2 as (_ & _ & d2 & _ & ->).
  unfold _prefix_metric_keys in Hk1, Hk2.
  apply (keys_rekey_iff
           (fun x => "on_train_batch_start" +:+ group_separator logger1 +:+ x))
    in Hk1.
  apply (keys_rekey_iff
           (fun x => "on_train_batch_end" +:+ group_separator logger2 +:+ x))
    in Hk2.
  destruct Hk1 as (k1 & _ & ->). destruct Hk2 as (k2 & _ & Heq).
  exact (Str.hook_labels_apart _ _ _ _ Heq).
Qed.

Lemma hooks_log_disjoint_keys_witness :
  let trainer :=
    Examples.host [Examples.sink1] true Examples.cuda0 [("a", 1%Q)] 7 in
  let started : dict Q := [("on_train_batch_start/a", 1%Q)] in
  let ended : dict Q := [("on_train_batch_end/a", 1%Q)] in
  (In (LogMetrics Examples.sink1 started 7%Z)
      (trace (on_train_batch_start Examples.process_stats (__init__ None)
                trainer))
   /\ In (LogMetrics Examples.sink1 ended 7%Z)
         (trace (on_train_batch_end Examples.process_stats (__init__ None)
                   trainer))
   /\ In "on_train_batch_start/a" (keys started))
  /\ ~ In "on_train_batch_start/a" (keys ended).
Proof.
  intros trainer started ended.
  assert (H1 : In (LogMetrics Examples.sink1 started 7%Z)
                 (trace (on_train_batch_start Examples.process_stats
                           (__init__ None) trainer)))
    by (right; left; reflexivity).
  assert (H2 : In (LogMetrics Examples.sink1 ended 7%Z)
                 (trace (on_train_batch_end Examples.process_stats
                           (__init__ None) trainer)))
    by (right; left; reflexivity).
  assert (H3 : In "on_train_batch_start/a" (keys started))
    by (left; reflexivity).
  split; [repeat apply conj; assumption|].
  exact (hooks_log_disjoint_keys Examples.process_stats Examples.process_stats
           (__init__ None) (__init__ None) trainer trainer
           Examples.sink1 Examples.sink1 started ended 7%Z 7%Z
           "on_train_batch_start/a" H1 H2 H3).
Defined.

(** X13. On the CPU device, [cpu_stats=True] and [cpu_stats] left unset
    give the same run: the same calls with the same arguments in the same
    order, and the same outcome. *)
Theorem cpu_device_true_is_unset {V : Type}
    (get_cpu_process_metrics : unit -> dict V)
    (self1 self2 : DeviceStatsMonitor) (trainer : Trainer V) (key : string) :
  cpu_stats self1 = Some true ->
  cpu_stats self2 = None ->
  type (root_device (strategy trainer)) = "cpu" ->
  _get_and_log_device_stats get_cpu_process_metrics self1 trainer key
  = _get_and_log_device_stats get_cpu_process_metrics self2 trainer key.
Proof.
  intros H1 H2 Ht.
  assert (Hsample :
    sample_device_stats get_cpu_process_metrics self1 trainer
    = sample_device_stats get_cpu_process_metrics self2 trainer).
  { rewrite !sample_cases, H1, H2, Ht. reflexivity. }
  unfold _get_and_log_device_stats. now rewrite Hsample.
Qed.

Lemma cpu_device_true_is_unset_witness :
  let trainer :=
    Examples.host [Examples.sink1] true Examples.cpu Examples.gpu_stats 7 in
  (cpu_stats (__init__ (Some true)) = Some true
   /\ cpu_stats (__init__ None) = None
   /\ type (root_device (strategy trainer)) = "cpu")
  /\ on_train_batch_start Examples.process_stats (__init__ (Some true)) trainer
     = on_train_batch_start Examples.process_stats (__init__ None) trainer.
Proof.
  intros trainer.
  assert (H1 : cpu_stats (__init__ (Some true)) = Some true) by reflexivity.
  assert (H2 : cpu_stats (__init__ None) = None) by reflexivity.
  assert (H3 : type (root_device (strategy trainer)) = "cpu") by reflexivity.
  split; [repeat apply conj; assumption|].
  exact (cpu_device_true_is_unset Examples.process_stats
           (__init__ (Some true)) (__init__ None) trainer
           "on_train_batch_start" H1 H2 H3).
Defined.

(** X14. With the empty prefix the deprecated helper returns its input
    unchanged (after the notice), and so does the logger-aware prefixing
    with empty prefix and empty separator. *)
Theorem empty_prefix_is_identity {V : Type} (metrics_dict : dict V) :
  wf metrics_dict ->
  outcome (prefix_metric_keys metrics_dict "") = Returned metrics_dict
  /\ _prefix_metric_keys metrics_dict "" "" = metrics_dict.
Proof.
  intros Hwf.
  assert (Hid : _prefix_metric_keys metrics_dict "" "" = metrics_dict).
  { rewrite prefix_metric_keys_map by assumption. simpl.
    rewrite <- (map_id metrics_dict) at 2.
    apply map_ext. now intros [k v]. }
  split; [|exact Hid].
  unfold prefix_metric_keys, rank_zero_deprecation, call, bind. simpl.
  now rewrite Hid.
Qed.

Lemma empty_prefix_is_identity_witness :
  wf Examples.gpu_stats
  /\ outcome (prefix_metric_keys Examples.gpu_stats "")
     = Returned Examples.gpu_stats.
Proof.
  assert (Hwf : wf Examples.gpu_stats) by solve_wf.
  split; [exact Hwf|].
  exact (proj1 (empty_prefix_is_identity Examples.gpu_stats Hwf)).
Defined.




(** X17. A failed query aborts the sampling call and nothing is logged.
    In a call that emits: if the device query is due ([cpu_stats] not
    [False]) and raises, the call is that one query and ends with its
    exception; if the process query is due ([cpu_stats=True], device not
    the CPU), the device query returned and the process query raises, the
    call is the two queries and ends with the process query's exception.
    No [log_metrics] call is made in either case. *)
Theorem failed_query_logs_nothing {V : Type}
    (get_cpu_process_metrics : unit -> dict V)
    (raises : list (Event V) -> Event V -> option Exception)
    (self : DeviceStatsMonitor) (trainer : Trainer V) (key : string)
    (history : list (Event V)) :
  let run := Raising._get_and_log_device_stats get_cpu_process_metrics raises
               self trainer key history in
  let device := root_device (strategy trainer) in
  loggers trainer <> [] ->
  should_update_logs (_logger_connector trainer) = true ->
  (cpu_stats self <> Some false ->
   forall e, raises history (GetDeviceStats device) = Some e ->
   run = Run [GetDeviceStats device] (Raised e))
  /\ (cpu_stats self = Some true ->
      type device <> "cpu" ->
      raises history (GetDeviceStats device) = None ->
      forall e,
        raises (history ++ [GetDeviceStats device]) GetCpuProcessMetrics
        = Some e ->
        run = Run [GetDeviceStats device; GetCpuProcessMetrics] (Raised e)).
Proof.
  intros run device Hl Hs. unfold run, device.
  unfold Raising._get_and_log_device_stats.
  rewrite (truthy_list_nonempty _ Hl), Hs. simpl.
  split.
  - intros Hc e He. unfold Raising.bind_. rewrite sample_cases_, He.
    destruct (cpu_stats self) as [[|]|]; try reflexivity.
    now contradiction Hc.
  - intros Hc Ht Hd e He. unfold Raising.bind_.
    rewrite sample_cases_, Hc, Hd, He.
    apply String.eqb_neq in Ht. now rewrite Ht.
Qed.

Lemma failed_query_logs_nothing_witness :
  let trainer :=
    Examples.host [Examples.sink1; Examples.sink2] true Examples.cuda0
      Examples.gpu_stats 7 in
  (loggers trainer <> []
   /\ should_update_logs (_logger_connector trainer) = true
   /\ cpu_stats (__init__ (Some true)) <> Some false
   /\ Examples.device_query_fails [] (GetDeviceStats Examples.cuda0)
      = Some (CollaboratorException "RuntimeError"))
  /\ Raising._get_and_log_device_stats Examples.process_stats
       Examples.device_query_fails (__init__ (Some true)) trainer
       "on_train_batch_end" []
     = Run [GetDeviceStats Examples.cuda0]
           (Raised (CollaboratorException "RuntimeError")).
Proof.
  intros trainer.
  assert (H1 : loggers trainer <> []) by discriminate.
  assert (H2 : should_update_logs (_logger_connector trainer) = true)
    by reflexivity.
  assert (H3 : cpu_stats (__init__ (Some true)) <> Some false) by discriminate.
  assert (H4 : Examples.device_query_fails [] (GetDeviceStats Examples.cuda0)
               = Some (CollaboratorException "RuntimeError")) by reflexivity.
  split; [repeat apply conj; assumption|].
  exact (proj1 (failed_query_logs_nothing Examples.process_stats
                  Examples.device_query_fails (__init__ (Some true)) trainer
                  "on_train_batch_end" [] H1 H2)
           H3 _ H4).
Defined.


